(** * v0puter.js: the chat page's reply normaliser, gateway adapter,
      mock responder, submission handler and script loader

    A shallow embedding of [src/app/page.tsx].  The component's functions
    are translated one by one, keeping their names:
    [extractTextFromResponse], [callPuterChat], [getMockResponse],
    [handleSubmit] and the script-loading effect.

    JavaScript values are a first-order datatype ([JsValue]); the
    built-ins the page calls ([JSON.parse], [JSON.stringify],
    [Array.prototype.join], [typeof], [in], truthiness, [trim],
    [toLowerCase], [includes]) are written out after ECMA-262.
    Exceptions are explicit: a computation that may throw returns a
    [Completion].  An [await] gives an [Awaited]: the completion of the
    promise, or nothing while the promise is pending, in which case the
    handler stays suspended and is resumed by a later event of the page.
    Writing to the console (all that [debugMode] turns on inside these
    functions) changes no result and is left out. *)

From Stdlib Require Import String Ascii List ZArith Bool Lia DecimalString.
Import ListNotations.
Local Open Scope string_scope.
Local Open Scope Z_scope.
Set Warnings "-register-all".

(* ================================================================== *)
(** * JavaScript values *)
(* ================================================================== *)

(** Strings are sequences of 8-bit units read as UTF-8; every character
    the page's own literals and the JSON grammar mention is ASCII.

    A finite number is written [JNum mant exp10], the decimal
    [mant * 10^exp10]: for a binary64 value, the shortest decimal that
    denotes it, which is what Number::toString prints.  Both zeros are
    [JNum 0 0] (no operation of the page tells them apart).  [JSON.parse]
    rounds the literal it reads to binary64 ([NumberValue] below).

    An object lists its own enumerable properties in enumeration order
    and has [Object.prototype] as prototype.  A function value records
    its source text and what invoking it without arguments does:
    [Some v] returns [v], [None] throws. *)
Inductive JsValue : Type :=
| JUndefined
| JNull
| JBool (b : bool)
| JNum (mant exp10 : Z)
| JInfinity (negative : bool)
| JNaN
| JStr (s : string)
| JArr (items : list JsValue)
| JObj (props : list (string * JsValue))
| JFun (src : string) (call : option JsValue).

Inductive JsError : Type :=
| TypeError
| SyntaxError
| ErrorMsg (message : string)   (* [new Error(message)] *)
| HostThrow.                    (* whatever a host function threw *)

(** The outcome of evaluating an expression or a function body. *)
Inductive Completion (A : Type) : Type :=
| Normal (a : A)
| Throw (e : JsError).
Arguments Normal {A} a.
Arguments Throw {A} e.

Definition bind {A B} (c : Completion A) (k : A -> Completion B) : Completion B :=
  match c with
  | Normal a => k a
  | Throw e => Throw e
  end.

(** [try { body } catch (e) { handler }] *)
Definition try_catch {A} (body : Completion A) (handler : JsError -> Completion A)
  : Completion A :=
  match body with
  | Normal a => Normal a
  | Throw e => handler e
  end.

Declare Scope js_scope.
Delimit Scope js_scope with js.
Notation "x <- c ;; k" := (bind c (fun x => k))
  (at level 61, c at next level, right associativity) : js_scope.
Local Open Scope js_scope.

Fixpoint mapM {A B} (f : A -> Completion B) (l : list A) : Completion (list B) :=
  match l with
  | [] => Normal []
  | x :: tl => y <- f x ;; ys <- mapM f tl ;; Normal (y :: ys)
  end.

(* ================================================================== *)
(** * Built-in operations *)
(* ================================================================== *)

(** [typeof v] *)
Definition typeof (v : JsValue) : string :=
  match v with
  | JUndefined => "undefined"
  | JNull => "object"
  | JBool _ => "boolean"
  | JNum _ _ | JInfinity _ | JNaN => "number"
  | JStr _ => "string"
  | JArr _ => "object"
  | JObj _ => "object"
  | JFun _ _ => "function"
  end.

(** [Boolean(v)], the truthiness test of [if], [!], [&&] and
    [filter(Boolean)]. *)
Definition ToBoolean (v : JsValue) : bool :=
  match v with
  | JUndefined | JNull | JNaN => false
  | JBool b => b
  | JNum m _ => negb (m =? 0)
  | JStr s => negb (s =? "")%string
  | JInfinity _ | JArr _ | JObj _ | JFun _ _ => true
  end.

(** [Array.isArray(v)] *)
Definition isArray (v : JsValue) : bool :=
  match v with
  | JArr _ => true
  | _ => false
  end.

Fixpoint lookup (k : string) (props : list (string * JsValue)) : option JsValue :=
  match props with
  | [] => None
  | (k', v) :: tl => if (k' =? k)%string then Some v else lookup k tl
  end.

(** [v.k] for the property names the page reads ([message], [content],
    [text], [ai], [chat]).  No built-in prototype defines any of them, so
    only an object's own properties can answer; reading from [null] or
    [undefined] throws. *)
Definition Get (v : JsValue) (k : string) : Completion JsValue :=
  match v with
  | JUndefined | JNull => Throw TypeError
  | JObj props =>
      match lookup k props with
      | Some x => Normal x
      | None => Normal JUndefined
      end
  | _ => Normal JUndefined
  end.

(** [v?.k] *)
Definition GetOpt (v : JsValue) (k : string) : Completion JsValue :=
  match v with
  | JUndefined | JNull => Normal JUndefined
  | _ => Get v k
  end.

(** [k in v], for the same property names and an operand whose [typeof]
    is ["object"] and which is not [null]. *)
Definition HasProperty (v : JsValue) (k : string) : bool :=
  match v with
  | JObj props =>
      match lookup k props with
      | Some _ => true
      | None => false
      end
  | _ => false
  end.

(** ** Number to string (ECMA-262 Number::toString, radix 10) *)

Definition digits_of (n : Z) : string :=
  NilZero.string_of_uint (N.to_uint (Z.to_N n)).

Fixpoint rev_string (s acc : string) : string :=
  match s with
  | EmptyString => acc
  | String c tl => rev_string tl (String c acc)
  end.

(** Drops the leading ["0"] characters and counts them. *)
Fixpoint drop_zeros (s : string) : string * Z :=
  match s with
  | String "0" tl => let (r, n) := drop_zeros tl in (r, n + 1)
  | _ => (s, 0)
  end.

Fixpoint zeros (n : nat) : string :=
  match n with
  | O => ""
  | S k => String "0" (zeros k)
  end.

Definition take (n : Z) (s : string) : string := substring 0 (Z.to_nat n) s.
Definition drop (n : Z) (s : string) : string :=
  substring (Z.to_nat n) (String.length s - Z.to_nat n) s.

Definition NumberToString (mant exp10 : Z) : string :=
  if mant =? 0 then "0"
  else
    let (rs, z) := drop_zeros (rev_string (digits_of (Z.abs mant)) "") in
    let ds := rev_string rs "" in                 (* significant digits *)
    let k := Z.of_nat (String.length ds) in
    let n := k + (exp10 + z) in                   (* value = 0.ds * 10^n *)
    let body :=
      if (k <=? n) && (n <=? 21) then ds ++ zeros (Z.to_nat (n - k))
      else if (0 <? n) && (n <=? 21) then take n ds ++ "." ++ drop n ds
      else if (-6 <? n) && (n <=? 0) then "0." ++ zeros (Z.to_nat (- n)) ++ ds
      else
        let e := n - 1 in
        let es := (if e <? 0 then "-" else "+") ++ digits_of (Z.abs e) in
        if k =? 1 then ds ++ "e" ++ es
        else take 1 ds ++ "." ++ drop 1 ds ++ "e" ++ es in
    (if mant <? 0 then "-" else "") ++ body.

(** ** Conversion to string and [Array.prototype.join] *)

Definition is_primitive (v : JsValue) : bool :=
  match v with
  | JArr _ | JObj _ | JFun _ _ => false
  | _ => true
  end.

(** [String(v)] for a primitive [v]. *)
Definition primitive_to_string (v : JsValue) : string :=
  match v with
  | JUndefined => "undefined"
  | JNull => "null"
  | JBool true => "true"
  | JBool false => "false"
  | JNum m e => NumberToString m e
  | JInfinity false => "Infinity"
  | JInfinity true => "-Infinity"
  | JNaN => "NaN"
  | JStr s => s
  | _ => ""
  end.

(** The second step of OrdinaryToPrimitive with hint string, reached when
    [toString] is not callable or did not return a primitive.  Without an
    own [valueOf], [Object.prototype.valueOf] answers with the object
    itself and the conversion fails. *)
Definition valueOf_to_string (props : list (string * JsValue)) : Completion string :=
  match lookup "valueOf" props with
  | Some (JFun _ (Some r)) =>
      if is_primitive r then Normal (primitive_to_string r) else Throw TypeError
  | Some (JFun _ None) => Throw HostThrow
  | _ => Throw TypeError
  end.

(** OrdinaryToPrimitive with hint string on a plain object, followed by
    the conversion of the primitive.  Without an own [toString],
    [Object.prototype.toString] answers. *)
Definition object_to_string (props : list (string * JsValue)) : Completion string :=
  match lookup "toString" props with
  | None => Normal "[object Object]"
  | Some (JFun _ (Some r)) =>
      if is_primitive r then Normal (primitive_to_string r)
      else valueOf_to_string props
  | Some (JFun _ None) => Throw HostThrow
  | Some _ => valueOf_to_string props
  end.

Section Join.
Variable elt : JsValue -> Completion string.

(** The loop of [Array.prototype.join]: [undefined] and [null]
    elements contribute the empty string. *)
Fixpoint join_with (sep : string) (items : list JsValue) : Completion string :=
  match items with
  | [] => Normal ""
  | x :: tl =>
      s <- match x with
           | JUndefined | JNull => Normal ""
           | _ => elt x
           end ;;
      match tl with
      | [] => Normal s
      | _ => r <- join_with sep tl ;; Normal (s ++ sep ++ r)
      end
  end.
End Join.

(** [String(v)]: an array converts through [join(",")], a function to its
    source text. *)
Fixpoint ToString (v : JsValue) : Completion string :=
  match v with
  | JArr items => join_with ToString "," items
  | JObj props => object_to_string props
  | JFun src _ => Normal src
  | _ => Normal (primitive_to_string v)
  end.

(** [items.join(sep)] *)
Definition join (sep : string) (items : list JsValue) : Completion string :=
  join_with ToString sep items.

(** ** [JSON.stringify] *)

Definition hex_digit (n : N) : ascii :=
  ascii_of_N (if (n <? 10)%N then 48 + n else 87 + n)%N.

Definition hex4_of (n : N) : string :=
  String (hex_digit (n / 4096))
    (String (hex_digit ((n / 256) mod 16))
       (String (hex_digit ((n / 16) mod 16))
          (String (hex_digit (n mod 16)) EmptyString))).

Definition dquote : string := String "034" EmptyString.
Definition newline : string := String "010" EmptyString.

(** Source text in the examples is written with an apostrophe wherever
    the text has a double quote. *)
Fixpoint jsonText (s : string) : string :=
  match s with
  | EmptyString => EmptyString
  | String c tl => String (if (c =? "'")%char then "034"%char else c) (jsonText tl)
  end.

(** QuoteJSONString, one character at a time. *)
Definition quote_char (c : ascii) : string :=
  let n := N_of_ascii c in
  if (n =? 8)%N then "\b"
  else if (n =? 9)%N then "\t"
  else if (n =? 10)%N then "\n"
  else if (n =? 12)%N then "\f"
  else if (n =? 13)%N then "\r"
  else if (n =? 34)%N then "\" ++ dquote
  else if (n =? 92)%N then "\\"
  else if (n <? 32)%N then
    "\u" ++ hex4_of n
  else String c "".

(** The three bytes of a lone surrogate are written as its [\uXXXX]
    escape; every other character goes through [quote_char]. *)
Fixpoint quote_chars (s : string) : string :=
  match s with
  | EmptyString => EmptyString
  | String c tl =>
      let plain := quote_char c ++ quote_chars tl in
      match tl with
      | String c2 (String c3 tl3) =>
          if ((N_of_ascii c =? 237) && (160 <=? N_of_ascii c2))%N
          then "\u" ++ hex4_of (53248 + (N_of_ascii c2 - 128) * 64 + (N_of_ascii c3 - 128))%N
                    ++ quote_chars tl3
          else plain
      | _ => plain
      end
  end.

Definition QuoteJSONString (s : string) : string :=
  dquote ++ quote_chars s ++ dquote.

Fixpoint concat_with (sep : string) (l : list string) : string :=
  match l with
  | [] => ""
  | [x] => x
  | x :: tl => x ++ sep ++ concat_with sep tl
  end.

(** SerializeJSONProperty without replacer or indentation.  [None] is
    JavaScript's [undefined] result.  With [toJSON_step] set, the
    [toJSON] method of an object is consulted first, as the algorithm
    does for every property value; its result is then serialised without
    consulting [toJSON] on the result itself. *)
Fixpoint SerializeJSONProperty (toJSON_step : bool) (v : JsValue)
  : Completion (option string) :=
  match v with
  | JUndefined => Normal None
  | JNull => Normal (Some "null")
  | JBool true => Normal (Some "true")
  | JBool false => Normal (Some "false")
  | JNum m e => Normal (Some (NumberToString m e))
  | JInfinity _ | JNaN => Normal (Some "null")
  | JStr s => Normal (Some (QuoteJSONString s))
  | JFun _ _ => Normal None
  | JArr items =>
      parts <- (fix elements (xs : list JsValue) : Completion (list string) :=
                  match xs with
                  | [] => Normal []
                  | x :: tl =>
                      p <- SerializeJSONProperty true x ;;
                      ps <- elements tl ;;
                      Normal (match p with Some s => s | None => "null" end :: ps)
                  end) items ;;
      Normal (Some ("[" ++ concat_with "," parts ++ "]"))
  | JObj props =>
      let object :=
        parts <- (fix members (ps : list (string * JsValue))
                    : Completion (list string) :=
                    match ps with
                    | [] => Normal []
                    | (k, x) :: tl =>
                        p <- SerializeJSONProperty true x ;;
                        ms <- members tl ;;
                        Normal (match p with
                                | Some s => (QuoteJSONString k ++ ":" ++ s) :: ms
                                | None => ms
                                end)
                    end) props ;;
        Normal (Some ("{" ++ concat_with "," parts ++ "}")) in
      if toJSON_step then
        (fix find_toJSON (ps : list (string * JsValue))
           : Completion (option string) :=
           match ps with
           | [] => object
           | (k, x) :: tl =>
               if (k =? "toJSON")%string then
                 match x with
                 | JFun _ (Some r) => SerializeJSONProperty false r
                 | JFun _ None => Throw HostThrow
                 | _ => object
                 end
               else find_toJSON tl
           end) props
      else object
  end.

(** [JSON.stringify(v)] *)
Definition JSON_stringify (v : JsValue) : Completion JsValue :=
  r <- SerializeJSONProperty true v ;;
  Normal (match r with
          | Some s => JStr s
          | None => JUndefined
          end).

(** ** [JSON.parse] *)

Definition is_ws (c : ascii) : bool :=
  let n := N_of_ascii c in
  ((n =? 32) || (n =? 9) || (n =? 10) || (n =? 13))%N.

Fixpoint skip_ws (s : string) : string :=
  match s with
  | String c tl => if is_ws c then skip_ws tl else s
  | EmptyString => s
  end.

Definition is_digit (c : ascii) : bool :=
  let n := N_of_ascii c in ((48 <=? n) && (n <=? 57))%N.

Definition hex_value (c : ascii) : option N :=
  let n := N_of_ascii c in
  if ((48 <=? n) && (n <=? 57))%N then Some (n - 48)%N
  else if ((97 <=? n) && (n <=? 102))%N then Some (n - 87)%N
  else if ((65 <=? n) && (n <=? 70))%N then Some (n - 55)%N
  else None.

Definition hex4 (a b c d : ascii) : option N :=
  match hex_value a, hex_value b, hex_value c, hex_value d with
  | Some x, Some y, Some z, Some w => Some (((x * 16 + y) * 16 + z) * 16 + w)%N
  | _, _, _, _ => None
  end.

(** What a string literal contributes: a character of the text, or the
    UTF-16 code unit of a [\uXXXX] escape. *)
Inductive StrUnit : Type :=
| Raw (c : ascii)
| Escaped (unit : N).

(** The characters of a string literal after its opening quote, up to the
    closing quote; also returns the text behind it. *)
Fixpoint scan_string (s : string) : option (list StrUnit * string) :=
  let cons u r := match r with
                  | Some (us, rest) => Some (u :: us, rest)
                  | None => None
                  end in
  match s with
  | EmptyString => None
  | String c tl =>
      if (c =? "034")%char then Some ([], tl)
      else if (c =? "\")%char then
        match tl with
        | String e tl' =>
            if (e =? "u")%char then
              match tl' with
              | String h1 (String h2 (String h3 (String h4 tl''))) =>
                  match hex4 h1 h2 h3 h4 with
                  | Some n => cons (Escaped n) (scan_string tl'')
                  | None => None
                  end
              | _ => None
              end
            else if (e =? "034")%char then cons (Raw "034") (scan_string tl')
            else if (e =? "\")%char then cons (Raw "\") (scan_string tl')
            else if (e =? "/")%char then cons (Raw "/") (scan_string tl')
            else if (e =? "b")%char then cons (Raw "008") (scan_string tl')
            else if (e =? "f")%char then cons (Raw "012") (scan_string tl')
            else if (e =? "n")%char then cons (Raw "010") (scan_string tl')
            else if (e =? "r")%char then cons (Raw "013") (scan_string tl')
            else if (e =? "t")%char then cons (Raw "009") (scan_string tl')
            else None
        | EmptyString => None
        end
      else if (N_of_ascii c <? 32)%N then None
      else cons (Raw c) (scan_string tl)
  end.

(** UTF-8 encoding of a code point (a lone surrogate is encoded like any
    other three-byte code point). *)
Definition utf8 (n : N) : string :=
  let b x := ascii_of_N x in
  (if n <? 128 then String (b n) EmptyString
   else if n <? 2048 then
     String (b (192 + n / 64)) (String (b (128 + n mod 64)) EmptyString)
   else if n <? 65536 then
     String (b (224 + n / 4096))
       (String (b (128 + (n / 64) mod 64)) (String (b (128 + n mod 64)) EmptyString))
   else
     String (b (240 + n / 262144))
       (String (b (128 + (n / 4096) mod 64))
          (String (b (128 + (n / 64) mod 64))
             (String (b (128 + n mod 64)) EmptyString))))%N.

Definition is_high_surrogate (n : N) : bool := ((55296 <=? n) && (n <=? 56319))%N.
Definition is_low_surrogate (n : N) : bool := ((56320 <=? n) && (n <=? 57343))%N.

(** The string value of a literal: an escaped high surrogate directly
    followed by an escaped low surrogate is one code point. *)
Fixpoint string_of_units (us : list StrUnit) : string :=
  match us with
  | [] => EmptyString
  | Raw c :: tl => String c (string_of_units tl)
  | Escaped hi :: ((Escaped lo :: tl') as tl) =>
      if is_high_surrogate hi && is_low_surrogate lo
      then utf8 (65536 + (hi - 55296) * 1024 + (lo - 56320))%N ++ string_of_units tl'
      else utf8 hi ++ string_of_units tl
  | Escaped n :: tl => utf8 n ++ string_of_units tl
  end.

Definition parse_string (s : string) : option (string * string) :=
  match scan_string s with
  | Some (us, rest) => Some (string_of_units us, rest)
  | None => None
  end.

(** The longest prefix of decimal digits, and the text behind it. *)
Fixpoint span_digits (s : string) : string * string :=
  match s with
  | String c tl =>
      if is_digit c then let (d, r) := span_digits tl in (String c d, r)
      else (EmptyString, s)
  | EmptyString => (EmptyString, s)
  end.

Fixpoint Z_of_digits (acc : Z) (s : string) : Z :=
  match s with
  | EmptyString => acc
  | String c tl => Z_of_digits (10 * acc + (Z.of_N (N_of_ascii c) - 48)) tl
  end.

(** At least one digit. *)
Definition digits1 (s : string) : option (string * string) :=
  match span_digits s with
  | (EmptyString, _) => None
  | (d, r) => Some (d, r)
  end.

Definition starts_with (c : ascii) (s : string) : option string :=
  match s with
  | String c' tl => if (c' =? c)%char then Some tl else None
  | EmptyString => None
  end.

(** The integer part: a single 0, or digits that start with 1 to 9. *)
Definition number_int (s : string) : option (string * string) :=
  match starts_with "0" s with
  | Some tl => Some ("0", tl)
  | None => digits1 s
  end.

(** The optional fraction: a dot and at least one digit. *)
Definition number_frac (s : string) : option (string * string) :=
  match starts_with "." s with
  | Some tl => digits1 tl
  | None => Some (EmptyString, s)
  end.

(** The optional exponent: e or E, an optional sign, at least one
    digit. *)
Definition number_exp (s : string) : option (Z * string) :=
  match starts_with "e" s, starts_with "E" s with
  | None, None => Some (0, s)
  | Some tl, _ | None, Some tl =>
      let (eneg, s') := match starts_with "-" tl, starts_with "+" tl with
                        | Some r, _ => (true, r)
                        | None, Some r => (false, r)
                        | None, None => (false, tl)
                        end in
      match digits1 s' with
      | Some (d, r) => Some ((if eneg then -1 else 1) * Z_of_digits 0 d, r)
      | None => None
      end
  end.

(** ** The Number value of a decimal literal *)

(** The integer nearest to [n / d], the even one when two are equally
    near ([0 <= n], [0 < d]). *)
Definition round_half_even (n d : Z) : Z :=
  let q := n / d in
  match 2 * (n mod d) ?= d with
  | Lt => q
  | Gt => q + 1
  | Eq => if Z.even q then q else q + 1
  end.

(** The fraction [n / d] divided by [b ^ e]. *)
Definition scale (b n d e : Z) : Z * Z :=
  if 0 <=? e then (n, d * b ^ e) else (n * b ^ (- e), d).

(** The largest [e] with [2 ^ e <= n / d] ([0 < n], [0 < d]). *)
Definition floor_log2 (n d : Z) : Z :=
  let e := Z.log2 n - Z.log2 d in
  let (n', d') := scale 2 n d e in
  if d' <=? n' then e else e - 1.

(** The largest [e] with [10 ^ e <= n / d] ([0 < n], [0 < d]). *)
Definition floor_log10 (n d : Z) : Z :=
  let e := Z.of_nat (String.length (digits_of n))
           - Z.of_nat (String.length (digits_of d)) in
  let (n', d') := scale 10 n d e in
  if d' <=? n' then e else e - 1.

(** The binary64 value nearest to [n / d] ([0 < n], [0 < d]), ties to
    even.  [Some (m, q)] is the value [m * 2 ^ q], with [m < 2 ^ 53] and
    [-1074 <= q <= 971]; [m] is 0 when the fraction rounds to zero.
    [None] is infinity. *)
Definition round_binary64 (n d : Z) : option (Z * Z) :=
  let q := Z.max (floor_log2 n d - 52) (-1074) in
  let (n', d') := scale 2 n d q in
  let m := round_half_even n' d' in
  let (m, q) := if m =? 2 ^ 53 then (2 ^ 52, q + 1) else (m, q) in
  if 971 <? q then None else Some (m, q).

(** [m * 2 ^ q] and [s * 10 ^ t] as fractions. *)
Definition binary_fraction (m q : Z) : Z * Z := scale 2 m 1 (- q).
Definition decimal_fraction (s t : Z) : Z * Z := scale 10 s 1 (- t).

(** Whether the decimal [s * 10 ^ t] rounds to the binary64 value
    [m * 2 ^ q]. *)
Definition denotes (m q s t : Z) : bool :=
  let (n, d) := decimal_fraction s t in
  match round_binary64 n d with
  | Some (m', q') => (m' =? m) && (q' =? q)
  | None => false
  end.

(** The decimal of [k] digits that denotes [m * 2 ^ q], if there is one;
    of two, the one nearer to the value.  [p] is the decimal exponent of
    the value's leading digit. *)
Definition decimal_of_length (m q p k : Z) : option (Z * Z) :=
  let (n, d) := binary_fraction m q in
  let t := p - (k - 1) in
  let (n', d') := scale 10 n d t in
  let lo := n' / d' in
  let hi := lo + 1 in
  match denotes m q lo t, denotes m q hi t with
  | true, true =>
      match 2 * (n' mod d') ?= d' with
      | Lt => Some (lo, t)
      | Gt => Some (hi, t)
      | Eq => Some (if Z.even lo then lo else hi, t)
      end
  | true, false => Some (lo, t)
  | false, true => Some (hi, t)
  | false, false => None
  end.

Fixpoint shortest_from (tries : nat) (m q p k : Z) : Z * Z :=
  match tries with
  | O => (0, 0)
  | S tries' =>
      match decimal_of_length m q p k with
      | Some (s, t) => if s mod 10 =? 0 then (s / 10, t + 1) else (s, t)
      | None => shortest_from tries' m q p (k + 1)
      end
  end.

(** The digits Number::toString prints for the positive binary64 value
    [m * 2 ^ q]: the decimal with the fewest digits that denotes it (17
    digits always do). *)
Definition shortest_decimal (m q : Z) : Z * Z :=
  let (n, d) := binary_fraction m q in
  shortest_from 17 m q (floor_log10 n d) 1.

(** The Number value of the literal [mant * 10 ^ exp10] with
    [0 <= mant], negated when [neg] is set: the literal's value rounded
    to binary64, as engines do for a literal of any length. *)
Definition NumberValue (neg : bool) (mant exp10 : Z) : JsValue :=
  if mant =? 0 then JNum 0 0
  else
    let (n, d) := decimal_fraction mant exp10 in
    match round_binary64 n d with
    | None => JInfinity neg
    | Some (m, q) =>
        if m =? 0 then JNum 0 0
        else let (s, t) := shortest_decimal m q in JNum (if neg then - s else s) t
    end.

(** A JSON number: an optional minus sign, the integer part, the
    optional fraction and the optional exponent. *)
Definition parse_number (s : string) : option (JsValue * string) :=
  let (neg, s1) := match starts_with "-" s with
                   | Some tl => (true, tl)
                   | None => (false, s)
                   end in
  match number_int s1 with
  | None => None
  | Some (ip, s2) =>
      match number_frac s2 with
      | None => None
      | Some (fp, s3) =>
          match number_exp s3 with
          | None => None
          | Some (e, s5) =>
              let m := Z_of_digits 0 (ip ++ fp) in
              Some (NumberValue neg m (e - Z.of_nat (String.length fp)), s5)
          end
      end
  end.

(** The canonical array index a property name denotes, if any. *)
Definition array_index (k : string) : option Z :=
  match k with
  | EmptyString => None
  | String c tl =>
      let (d, r) := span_digits k in
      if (r =? EmptyString)%string
         && (negb (c =? "0")%char || (tl =? EmptyString)%string)
         && (Z_of_digits 0 d <? 4294967295)
      then Some (Z_of_digits 0 d) else None
  end.

(** Adding a property the object does not have yet: array indices
    enumerate first, in ascending order, other names after them in
    creation order. *)
Fixpoint obj_add (k : string) (v : JsValue) (props : list (string * JsValue))
  : list (string * JsValue) :=
  match props with
  | [] => [(k, v)]
  | (k', v') :: tl =>
      match array_index k, array_index k' with
      | Some i, Some j => if i <? j then (k, v) :: props else (k', v') :: obj_add k v tl
      | Some _, None => (k, v) :: props
      | None, _ => (k', v') :: obj_add k v tl
      end
  end.

Fixpoint obj_replace (k : string) (v : JsValue) (props : list (string * JsValue))
  : list (string * JsValue) :=
  match props with
  | [] => []
  | (k', v') :: tl =>
      if (k' =? k)%string then (k, v) :: tl else (k', v') :: obj_replace k v tl
  end.

(** CreateDataProperty: a repeated name keeps its place and takes the new
    value. *)
Definition obj_set (k : string) (v : JsValue) (props : list (string * JsValue))
  : list (string * JsValue) :=
  match lookup k props with
  | Some _ => obj_replace k v props
  | None => obj_add k v props
  end.

(** The outcome of parsing a prefix of a text.  [Exhausted] only says
    that the recursion budget of the model ran out; [parse_value_fuel]
    below shows that [JSON_parse] never meets it. *)
Inductive ParseResult : Type :=
| Parsed (v : JsValue) (rest : string)
| Reject
| Exhausted.

(** [strip_prefix p s] is what follows [p] in [s], when [s] starts with
    [p]. *)
Fixpoint strip_prefix (p s : string) : option string :=
  match p, s with
  | EmptyString, _ => Some s
  | String a p', String b s' => if (a =? b)%char then strip_prefix p' s' else None
  | String _ _, EmptyString => None
  end.

(** A JSON value at the head of [s] (no leading white space), the
    elements of an array after its opening bracket, and the members of
    an object after its opening brace. *)
Fixpoint parse_value (fuel : nat) (s : string) {struct fuel} : ParseResult :=
  match fuel with
  | O => Exhausted
  | S fuel' =>
      match starts_with "{" s with
      | Some tl =>
          match starts_with "}" (skip_ws tl) with
          | Some rest => Parsed (JObj []) rest
          | None => parse_members fuel' [] (skip_ws tl)
          end
      | None =>
      match starts_with "[" s with
      | Some tl =>
          match starts_with "]" (skip_ws tl) with
          | Some rest => Parsed (JArr []) rest
          | None => parse_elements fuel' [] (skip_ws tl)
          end
      | None =>
      match starts_with "034" s with
      | Some tl =>
          match parse_string tl with
          | Some (str, rest) => Parsed (JStr str) rest
          | None => Reject
          end
      | None =>
      match strip_prefix "true" s, strip_prefix "false" s, strip_prefix "null" s with
      | Some rest, _, _ => Parsed (JBool true) rest
      | _, Some rest, _ => Parsed (JBool false) rest
      | _, _, Some rest => Parsed JNull rest
      | None, None, None =>
          match parse_number s with
          | Some (v, rest) => Parsed v rest
          | None => Reject
          end
      end end end end
  end

with parse_elements (fuel : nat) (acc : list JsValue) (s : string) {struct fuel}
  : ParseResult :=
  match fuel with
  | O => Exhausted
  | S fuel' =>
      match parse_value fuel' s with
      | Parsed v rest =>
          match starts_with "," (skip_ws rest), starts_with "]" (skip_ws rest) with
          | Some tl, _ => parse_elements fuel' (v :: acc) (skip_ws tl)
          | None, Some tl => Parsed (JArr (rev (v :: acc))) tl
          | None, None => Reject
          end
      | other => other
      end
  end

with parse_members (fuel : nat) (acc : list (string * JsValue)) (s : string)
  {struct fuel} : ParseResult :=
  match fuel with
  | O => Exhausted
  | S fuel' =>
      match starts_with "034" s with
      | None => Reject
      | Some s1 =>
          match parse_string s1 with
          | None => Reject
          | Some (k, s2) =>
              match starts_with ":" (skip_ws s2) with
              | None => Reject
              | Some s3 =>
                  match parse_value fuel' (skip_ws s3) with
                  | Parsed v rest =>
                      match starts_with "," (skip_ws rest),
                            starts_with "}" (skip_ws rest) with
                      | Some tl, _ => parse_members fuel' (obj_set k v acc) (skip_ws tl)
                      | None, Some tl => Parsed (JObj (obj_set k v acc)) tl
                      | None, None => Reject
                      end
                  | other => other
                  end
              end
          end
      end
  end.

(** [JSON.parse(s)]: one value between optional white space, or a
    SyntaxError. *)
Definition JSON_parse (s : string) : Completion JsValue :=
  match parse_value (S (2 * String.length s)) (skip_ws s) with
  | Parsed v rest =>
      if (skip_ws rest =? EmptyString)%string then Normal v else Throw SyntaxError
  | _ => Throw SyntaxError
  end.

(** ** String methods the page calls *)

(** [s.includes(needle)] *)
Fixpoint includes (s needle : string) : bool :=
  if prefix needle s then true
  else match s with
       | EmptyString => false
       | String _ tl => includes tl needle
       end.

(** [s.toLowerCase()].  The letters A to Z, and the two other characters
    whose lower-case form contains an ASCII letter (U+0130, which becomes
    i followed by U+0307, and the Kelvin sign U+212A, which becomes k),
    are mapped; the remaining non-ASCII letters are left as they are,
    which changes no answer of [includes] for an ASCII needle. *)
Fixpoint toLowerCase (s : string) : string :=
  match s with
  | EmptyString => EmptyString
  | String "196" (String "176" tl) =>
      String "i" (String "204" (String "135" (toLowerCase tl)))
  | String "226" (String "132" (String "170" tl)) => String "k" (toLowerCase tl)
  | String c tl =>
      let n := N_of_ascii c in
      String (if ((65 <=? n) && (n <=? 90))%N then ascii_of_N (n + 32) else c)
             (toLowerCase tl)
  end.

(** WhiteSpace and LineTerminator code points, by their UTF-8 bytes. *)
Definition ws1 (a : ascii) : bool :=
  let n := N_of_ascii a in
  (((9 <=? n) && (n <=? 13)) || (n =? 32))%N.

Definition ws2 (a b : ascii) : bool :=                     (* U+00A0 *)
  ((N_of_ascii a =? 194) && (N_of_ascii b =? 160))%N.

Definition ws3 (a b c : ascii) : bool :=
  let x := N_of_ascii a in
  let y := N_of_ascii b in
  let z := N_of_ascii c in
  (((x =? 225) && (y =? 154) && (z =? 128))                 (* U+1680 *)
   || ((x =? 226) && (y =? 128)
       && (((128 <=? z) && (z <=? 138))                      (* U+2000 to U+200A *)
           || (z =? 168) || (z =? 169) || (z =? 175)))       (* U+2028, U+2029, U+202F *)
   || ((x =? 226) && (y =? 129) && (z =? 159))              (* U+205F *)
   || ((x =? 227) && (y =? 128) && (z =? 128))              (* U+3000 *)
   || ((x =? 239) && (y =? 187) && (z =? 191)))%N.          (* U+FEFF *)

(** [s.trimStart()] *)
Fixpoint trimStart (s : string) : string :=
  match s with
  | String a tl =>
      if ws1 a then trimStart tl
      else match tl with
           | String b tl2 =>
               if ws2 a b then trimStart tl2
               else match tl2 with
                    | String c tl3 => if ws3 a b c then trimStart tl3 else s
                    | EmptyString => s
                    end
           | EmptyString => s
           end
  | EmptyString => s
  end.

(** [trimStart] on the reversed text: the bytes of a character arrive
    last byte first. *)
Fixpoint trimStart_rev (s : string) : string :=
  match s with
  | String a tl =>
      if ws1 a then trimStart_rev tl
      else match tl with
           | String b tl2 =>
               if ws2 b a then trimStart_rev tl2
               else match tl2 with
                    | String c tl3 => if ws3 c b a then trimStart_rev tl3 else s
                    | EmptyString => s
                    end
           | EmptyString => s
           end
  | EmptyString => s
  end.

(** [s.trimEnd()] *)
Definition trimEnd (s : string) : string :=
  rev_string (trimStart_rev (rev_string s EmptyString)) EmptyString.

(** [s.trim()] *)
Definition trim (s : string) : string := trimEnd (trimStart s).

(* ================================================================== *)
(** * The page component ([src/app/page.tsx]) *)
(* ================================================================== *)

Definition AI_MODELS : list (string * string) :=
  [ ("gpt-4o", "GPT-4o");
    ("claude-3-7-sonnet", "Claude 3.7 Sonnet");
    ("llama-3-70b", "Llama 3 70B");
    ("mistral-large", "Mistral Large");
    ("gemini-pro", "Gemini Pro") ].

Inductive Role : Type := User | Assistant | System.

(** [interface Message].  The field is declared a string; it holds
    whatever value the page stores in it. *)
Record Message : Type := { role : Role; content : JsValue }.

Inductive ScriptStatus : Type := Loading | Loaded | Error.

Definition ScriptStatus_eqb (a b : ScriptStatus) : bool :=
  match a, b with
  | Loading, Loading | Loaded, Loaded | Error, Error => true
  | _, _ => false
  end.

(** ** extractTextFromResponse *)

(** The callback given to [map]. *)
Definition textOfItem (item : JsValue) : Completion JsValue :=
  if ToBoolean item && (typeof item =? "object")%string && HasProperty item "text"
  then Get item "text"
  else Normal (JStr EmptyString).

(** [items.map(...).filter(Boolean).join("\n")] *)
Definition joinTexts (items : list JsValue) : Completion JsValue :=
  texts <- mapM textOfItem items ;;
  s <- join newline (filter ToBoolean texts) ;;
  Normal (JStr s).

Definition elements (v : JsValue) : list JsValue :=
  match v with
  | JArr items => items
  | _ => []
  end.

(** [typeof v.toString === "function" &&
     v.toString !== Object.prototype.toString], and with it the outcome
    of [v.toString()] when the test holds.  A plain object answers with
    its own [toString] property, any other value with the method of its
    built-in prototype. *)
Definition custom_toString (v : JsValue) : Completion (option (Completion JsValue)) :=
  match v with
  | JUndefined | JNull => Throw TypeError
  | JObj props =>
      match lookup "toString" props with
      | Some (JFun _ (Some r)) => Normal (Some (Normal r))
      | Some (JFun _ None) => Normal (Some (Throw HostThrow))
      | _ => Normal None
      end
  | _ => Normal (Some (s <- ToString v ;; Normal (JStr s)))
  end.

(** [a !== b] against a string literal. *)
Definition strict_neq_string (v : JsValue) (lit : string) : bool :=
  match v with
  | JStr s => negb (s =? lit)%string
  | _ => true
  end.

Definition extractTextFromResponse (response : JsValue) : Completion JsValue :=
  match response with
  | JStr s =>
      (* Handle string responses *)
      try_catch
        (parsed <- JSON_parse s ;;
         if ToBoolean parsed && isArray parsed then
           joinTexts (elements parsed)
         else if ToBoolean parsed && (typeof parsed =? "object")%string then
           if HasProperty parsed "text" then Get parsed "text"
           else Normal response
         else Normal response)
        (fun _ => Normal response)
  | _ =>
      (* Handle null or undefined *)
      if negb (ToBoolean response) then Normal (JStr "No response received")
      else
        try_catch
          (if isArray response then joinTexts (elements response)
           else
             message <- Get response "message" ;;
             mcontent <- GetOpt message "content" ;;
             mtext <- GetOpt mcontent "text" ;;
             if ToBoolean mtext then Normal mtext
             else
               text <- Get response "text" ;;
               if ToBoolean text then Normal text
               else
                 content <- Get response "content" ;;
                 if ToBoolean content then
                   if (typeof content =? "string")%string then Normal content
                   else JSON_stringify content
                 else if ToBoolean mcontent then
                   if (typeof mcontent =? "string")%string then Normal mcontent
                   else if isArray mcontent then joinTexts (elements mcontent)
                   else JSON_stringify mcontent
                 else
                   method <- custom_toString response ;;
                   match method with
                   | Some call =>
                       stringValue <- call ;;
                       if strict_neq_string stringValue "[object Object]"
                       then Normal stringValue
                       else JSON_stringify response
                   | None => JSON_stringify response
                   end)
          (fun _ => Normal (JStr "Error processing response"))
  end.

(** ** Component state *)

(** The [useState] cells and the [puterRef] ref of [Home]. *)
Record PageState : Type := {
  selectedModel : string;
  prompt : string;
  messages : list Message;
  isLoading : bool;
  scriptStatus : ScriptStatus;
  errorMessage : option string;
  puterRef : JsValue;
  debugMode : bool
}.

(** [AI_MODELS[0].id] *)
Definition firstModelId : string :=
  match AI_MODELS with
  | (id, _) :: _ => id
  | [] => EmptyString
  end.

Definition initialState : PageState := {|
  selectedModel := firstModelId;
  prompt := EmptyString;
  messages := [];
  isLoading := false;
  scriptStatus := Loading;
  errorMessage := None;
  puterRef := JNull;
  debugMode := false
|}.

(** The state a handler works on: the component state, and a record of
    the adapter invocations made so far (kept for the proofs; the page
    has no such list). *)
Record World : Type := {
  page : PageState;
  adapterCalls : list (string * string)   (* promptText, model *)
}.

(** What an [await] hands to the function that waits: the completion
    the promise has settled with, or nothing while the promise is
    pending. *)
Inductive Awaited (A : Type) : Type :=
| Settled (c : Completion A)
| Pending.
Arguments Settled {A} c.
Arguments Pending {A}.

(** A completion stands for the await that has settled with it. *)
Coercion Settled : Completion >-> Awaited.

(** A handler body: it may update the state, and it returns, throws, or
    is left suspended at an [await], with the state it has reached. *)
Definition Handler (A : Type) : Type := World -> Awaited A * World.

Definition ret {A} (a : A) : Handler A := fun w => (Settled (Normal a), w).

Definition hbind {A B} (m : Handler A) (k : A -> Handler B) : Handler B :=
  fun w =>
    match m w with
    | (Settled (Normal a), w') => k a w'
    | (Settled (Throw e), w') => (Settled (Throw e), w')
    | (Pending, w') => (Pending, w')
    end.

Definition lift {A} (c : Completion A) : Handler A := fun w => (Settled c, w).

(** [await p] *)
Definition await {A} (p : Awaited A) : Handler A := fun w => (p, w).

(** [try { body } catch (e) { handler }] *)
Definition htry {A} (body : Handler A) (handler : JsError -> Handler A) : Handler A :=
  fun w =>
    match body w with
    | (Settled (Normal a), w') => (Settled (Normal a), w')
    | (Settled (Throw e), w') => handler e w'
    | (Pending, w') => (Pending, w')
    end.

(** [try { body } finally { final }]; the [finally] block is not run
    while the body is suspended. *)
Definition hfinally {A} (body : Handler A) (final : Handler unit) : Handler A :=
  fun w =>
    match body w with
    | (Settled r, w') =>
        match final w' with
        | (Settled (Normal _), w'') => (Settled r, w'')
        | (Settled (Throw e), w'') => (Settled (Throw e), w'')
        | (Pending, w'') => (Pending, w'')
        end
    | (Pending, w') => (Pending, w')
    end.

Declare Scope handler_scope.
Delimit Scope handler_scope with handler.
Notation "x <-- m ;; k" := (hbind m (fun x => k))
  (at level 61, m at next level, right associativity) : handler_scope.
Notation "m ;;; k" := (hbind m (fun _ => k))
  (at level 61, right associativity) : handler_scope.
Local Open Scope handler_scope.

Definition update (f : PageState -> PageState) : Handler unit :=
  fun w => (Settled (Normal tt),
            {| page := f (page w); adapterCalls := adapterCalls w |}).

Definition setSelectedModel (v : string) : Handler unit :=
  update (fun p => {| selectedModel := v; prompt := prompt p; messages := messages p;
                      isLoading := isLoading p; scriptStatus := scriptStatus p;
                      errorMessage := errorMessage p; puterRef := puterRef p;
                      debugMode := debugMode p |}).

Definition setPrompt (v : string) : Handler unit :=
  update (fun p => {| selectedModel := selectedModel p; prompt := v; messages := messages p;
                      isLoading := isLoading p; scriptStatus := scriptStatus p;
                      errorMessage := errorMessage p; puterRef := puterRef p;
                      debugMode := debugMode p |}).

(** [setMessages(f)], the updater form; [setMessages(v)] is
    [setMessages (fun _ => v)]. *)
Definition setMessages (f : list Message -> list Message) : Handler unit :=
  update (fun p => {| selectedModel := selectedModel p; prompt := prompt p;
                      messages := f (messages p);
                      isLoading := isLoading p; scriptStatus := scriptStatus p;
                      errorMessage := errorMessage p; puterRef := puterRef p;
                      debugMode := debugMode p |}).

Definition setIsLoading (v : bool) : Handler unit :=
  update (fun p => {| selectedModel := selectedModel p; prompt := prompt p;
                      messages := messages p;
                      isLoading := v; scriptStatus := scriptStatus p;
                      errorMessage := errorMessage p; puterRef := puterRef p;
                      debugMode := debugMode p |}).

Definition setScriptStatus (v : ScriptStatus) : Handler unit :=
  update (fun p => {| selectedModel := selectedModel p; prompt := prompt p;
                      messages := messages p;
                      isLoading := isLoading p; scriptStatus := v;
                      errorMessage := errorMessage p; puterRef := puterRef p;
                      debugMode := debugMode p |}).

Definition setErrorMessage (v : option string) : Handler unit :=
  update (fun p => {| selectedModel := selectedModel p; prompt := prompt p;
                      messages := messages p;
                      isLoading := isLoading p; scriptStatus := scriptStatus p;
                      errorMessage := v; puterRef := puterRef p;
                      debugMode := debugMode p |}).

(** [puterRef.current = v] *)
Definition setPuterRef (v : JsValue) : Handler unit :=
  update (fun p => {| selectedModel := selectedModel p; prompt := prompt p;
                      messages := messages p;
                      isLoading := isLoading p; scriptStatus := scriptStatus p;
                      errorMessage := errorMessage p; puterRef := v;
                      debugMode := debugMode p |}).

Definition setDebugMode (v : bool) : Handler unit :=
  update (fun p => {| selectedModel := selectedModel p; prompt := prompt p;
                      messages := messages p;
                      isLoading := isLoading p; scriptStatus := scriptStatus p;
                      errorMessage := errorMessage p; puterRef := puterRef p;
                      debugMode := v |}).

(** [puterRef.current] *)
Definition readPuterRef : Handler JsValue :=
  fun w => (Settled (Normal (puterRef (page w))), w).

Definition recordAdapterCall (promptText model : string) : Handler unit :=
  fun w => (Settled (Normal tt),
            {| page := page w;
               adapterCalls := (adapterCalls w ++ [(promptText, model)])%list |}).

(** ** callPuterChat *)

(** What [await puter.ai.chat(promptText, options)] finds: the call has
    resolved to a value, it has thrown or rejected, or its promise is
    still pending (and may stay so for ever).  The function value found
    at [puter.ai.chat] only tells that [chat] is callable; what the call
    does with its two arguments comes from here. *)
Definition ChatOperation : Type := JsValue -> JsValue -> Awaited JsValue.

Definition notLoadedError : JsError := ErrorMsg "Puter.js is not loaded".

Definition aiUnavailableAdvisory : string :=
  "Sorry, the AI service is not available. This might be due to Puter.js API changes.".

Definition chatUnavailableAdvisory : string :=
  "Sorry, the chat method is not available in this version of Puter.js.".

Definition callPuterChat (chat : ChatOperation) (promptText model : string)
  : Handler JsValue :=
  recordAdapterCall promptText model ;;;
  htry
    (puter <-- readPuterRef ;;
     (* Make sure puter is available *)
     if negb (ToBoolean puter) then lift (Throw notLoadedError)
     else
       (* Check if ai property exists *)
       ai <-- lift (Get puter "ai") ;;
       if negb (ToBoolean ai) then ret (JStr aiUnavailableAdvisory)
       else
         (* Check if chat method exists *)
         chatMethod <-- lift (Get ai "chat") ;;
         if negb (typeof chatMethod =? "function")%string
         then ret (JStr chatUnavailableAdvisory)
         else
           response <-- await (chat (JStr promptText) (JObj [("model", JStr model)])) ;;
           (* Extract and return the text content from the response *)
           lift (extractTextFromResponse response))
    (fun error => lift (Throw error)).

(** ** getMockResponse *)

Definition mockGreeting : string :=
  "Hello! I'm a mock AI assistant. Puter.js isn't working correctly, but I can still chat with you in a limited way.".

Definition mockHelp : string :=
  "I'm currently running in mock mode because Puter.js isn't working correctly. Try checking the console for more information about the error.".

Definition mockGeneric : string :=
  "I'm a mock AI assistant. The Puter.js API seems to be unavailable or has changed. This is a fallback response.".

Definition getMockResponse (prompt : string) : string :=
  if includes (toLowerCase prompt) "hello" || includes (toLowerCase prompt) "hi"
  then mockGreeting
  else if includes (toLowerCase prompt) "help" then mockHelp
  else mockGeneric.

(** ** handleSubmit *)

(** [error instanceof Error ? error.message : "An unknown error occurred"].
    The errors built-ins raise are Error instances; their message text is
    the engine's, rendered here by the error's name. *)
Definition errorText (error : JsError) : string :=
  match error with
  | ErrorMsg message => message
  | TypeError => "TypeError"
  | SyntaxError => "SyntaxError"
  | HostThrow => "An unknown error occurred"
  end.

Definition requestFailedReply : string :=
  "Sorry, there was an error processing your request. Please try again.".

(** [render] is the state of the render whose closure the handler is:
    [prompt], [isLoading], [scriptStatus] and [selectedModel] are read
    from it, while [puterRef.current] and the updater passed to
    [setMessages] see the current state.  [await callPuterChat(...)]
    waits for the promise of [callPuterChat], which is settled as soon
    as that function returns or throws, and pending while that function
    is itself suspended at its [await]: the handler then ends [Pending],
    in the state the page shows while it waits. *)
Definition handleSubmit (chat : ChatOperation) (render : PageState) : Handler unit :=
  if negb (ToBoolean (JStr (trim (prompt render)))) || isLoading render then ret tt
  else
    hfinally
      (htry
         (setIsLoading true ;;;
          setErrorMessage None ;;;
          (* Add user message *)
          let userMessage := {| role := User; content := JStr (prompt render) |} in
          setMessages (fun prev => (prev ++ [userMessage])%list) ;;;
          let currentPrompt := prompt render in
          setPrompt EmptyString ;;;
          (* Try to use Puter.js if it's loaded *)
          usePuter <--
            (if ScriptStatus_eqb (scriptStatus render) Loaded then
               puter <-- readPuterRef ;;
               ai <-- lift (GetOpt puter "ai") ;;
               ret (ToBoolean ai)
             else ret false) ;;
          responseText <--
            (if usePuter then
               htry (callPuterChat chat currentPrompt (selectedModel render))
                    (* Fall back to mock response *)
                    (fun puterError => ret (JStr (getMockResponse currentPrompt)))
             else
               (* Use mock response if Puter.js isn't available *)
               ret (JStr (getMockResponse currentPrompt))) ;;
          (* Add assistant message with the extracted text *)
          let assistantMessage := {| role := Assistant; content := responseText |} in
          setMessages (fun prev => (prev ++ [assistantMessage])%list))
         (fun error =>
            setErrorMessage (Some (errorText error)) ;;;
            setMessages (fun prev =>
              (prev ++ [{| role := Assistant; content := JStr requestFailedReply |}])%list)))
      (setIsLoading false).

(** ** The rest of a submission *)

(** What is left to do of a submission suspended at
    [await puterRef.current.ai.chat(...)], once that promise has settled
    with [response]: the statements after the [await] in
    [callPuterChat], inside its [try], then those after
    [await callPuterChat(...)] in [handleSubmit], inside its two [try]
    blocks, and the [finally].  [currentPrompt] is the variable of the
    suspended call; the updaters see the state of the time they run. *)
Definition resumeSubmit (currentPrompt : string) (response : Completion JsValue)
  : Handler unit :=
  hfinally
    (htry
       (responseText <--
          htry
            (htry
               (response <-- lift response ;;
                (* Extract and return the text content from the response *)
                lift (extractTextFromResponse response))
               (fun error => lift (Throw error)))
            (* Fall back to mock response *)
            (fun puterError => ret (JStr (getMockResponse currentPrompt))) ;;
        (* Add assistant message with the extracted text *)
        let assistantMessage := {| role := Assistant; content := responseText |} in
        setMessages (fun prev => (prev ++ [assistantMessage])%list))
       (fun error =>
          setErrorMessage (Some (errorText error)) ;;;
          setMessages (fun prev =>
            (prev ++ [{| role := Assistant; content := JStr requestFailedReply |}])%list)))
    (setIsLoading false).

(** ** The script-loading effect *)

Definition timeoutMessage : string :=
  "Puter.js script loading timed out. Please check your connection and try again.".

Definition noPuterMessage : string :=
  "Puter.js loaded but the puter object is not available.".

Definition loadFailedMessage : string :=
  "Failed to load Puter.js script. Please check your connection and try again.".

Definition welcomeMessage : Message :=
  {| role := System;
     content := JStr "Welcome! Select an AI model and start chatting. The models are powered by Puter.js." |}.

(** The callback given to [setTimeout].  [scriptStatus] is the variable
    of the render in which the effect ran. *)
Definition onTimeout (render : PageState) : Handler unit :=
  if ScriptStatus_eqb (scriptStatus render) Loading then
    setScriptStatus Error ;;;
    setErrorMessage (Some timeoutMessage)
  else ret tt.

(** [script.onload], after its [clearTimeout]; [windowPuter] is the value
    of [window.puter] at that moment. *)
Definition onload (windowPuter : JsValue) : Handler unit :=
  setScriptStatus Loaded ;;;
  (* Check if puter object exists and store it in ref *)
  if ToBoolean windowPuter then
    setPuterRef windowPuter ;;;
    (* Add a welcome message *)
    setMessages (fun _ => [welcomeMessage])
  else
    setScriptStatus Error ;;;
    setErrorMessage (Some noPuterMessage).

(** [script.onerror], after its [clearTimeout]. *)
Definition onerror : Handler unit :=
  setScriptStatus Error ;;;
  setErrorMessage (Some loadFailedMessage).

(** ** The running page *)

(** The component together with what the browser holds for it: whether
    the 10 s timer is still pending, whether the script element has yet
    to fire its load or error event, and the submission that is
    suspended at its [await], if there is one, given by the
    [currentPrompt] its continuation closes over. *)
Record App : Type := {
  world : World;
  timerPending : bool;
  scriptPending : bool;
  awaiting : option string
}.

(** After the first render and the run of the effect (its dependency list
    is empty, so it runs once, in the first render's closure). *)
Definition mounted : App := {|
  world := {| page := initialState; adapterCalls := [] |};
  timerPending := true;
  scriptPending := true;
  awaiting := None
|}.

(** The state a handler leaves: the one it ends in, or the one in which
    it is suspended. *)
Definition run (h : Handler unit) (w : World) : World := snd (h w).

(** The events of the page's life.  A handler runs until it ends or is
    suspended at an [await] whose promise is pending, before the next
    event is taken; the state updates it has made are applied together.
    (An [await] of a promise that has settled resumes before any other
    event is taken, and is no state of its own here.) *)

(** The 10 s timer fires. *)
Definition fireTimeout (a : App) : App :=
  {| world := run (onTimeout initialState) (world a);
     timerPending := false;
     scriptPending := scriptPending a;
     awaiting := awaiting a |}.

(** The script element fires its load event; [onload] starts with
    [clearTimeout(timeoutId)]. *)
Definition fireLoad (windowPuter : JsValue) (a : App) : App :=
  {| world := run (onload windowPuter) (world a);
     timerPending := false;
     scriptPending := false;
     awaiting := awaiting a |}.

(** The script element fires its error event; [onerror] starts with
    [clearTimeout(timeoutId)]. *)
Definition fireError (a : App) : App :=
  {| world := run onerror (world a);
     timerPending := false;
     scriptPending := false;
     awaiting := awaiting a |}.

(** The user edits the textarea. *)
Definition typeText (text : string) (a : App) : App :=
  {| world := run (setPrompt text) (world a);
     timerPending := timerPending a;
     scriptPending := scriptPending a;
     awaiting := awaiting a |}.

(** The user picks a model. *)
Definition selectModel (model : string) (a : App) : App :=
  {| world := run (setSelectedModel model) (world a);
     timerPending := timerPending a;
     scriptPending := scriptPending a;
     awaiting := awaiting a |}.

(** The user clicks the debug button. *)
Definition toggleDebug (a : App) : App :=
  {| world := run (setDebugMode (negb (debugMode (page (world a))))) (world a);
     timerPending := timerPending a;
     scriptPending := scriptPending a;
     awaiting := awaiting a |}.

(** The user presses Enter or clicks the send button; [chat] is what the
    gateway's chat operation does at that time.  When the handler is
    left suspended, its [currentPrompt] is kept for the continuation. *)
Definition submit (chat : ChatOperation) (a : App) : App :=
  {| world := run (handleSubmit chat (page (world a))) (world a);
     timerPending := timerPending a;
     scriptPending := scriptPending a;
     awaiting := match fst (handleSubmit chat (page (world a)) (world a)) with
                 | Pending => Some (prompt (page (world a)))
                 | Settled _ => awaiting a
                 end |}.

(** The promise of the gateway call a submission is waiting for settles
    with [response], and the suspended handler runs to its end. *)
Definition settle (response : Completion JsValue) (a : App) : App :=
  match awaiting a with
  | Some currentPrompt =>
      {| world := run (resumeSubmit currentPrompt response) (world a);
         timerPending := timerPending a;
         scriptPending := scriptPending a;
         awaiting := None |}
  | None => a
  end.

Inductive step : App -> App -> Prop :=
| step_timeout a : timerPending a = true -> step a (fireTimeout a)
| step_load a windowPuter : scriptPending a = true -> step a (fireLoad windowPuter a)
| step_error a : scriptPending a = true -> step a (fireError a)
| step_type a text :
    isLoading (page (world a)) = false ->   (* the textarea is disabled while loading *)
    step a (typeText text a)
| step_select a model : step a (selectModel model a)
| step_debug a : step a (toggleDebug a)
| step_submit a chat : step a (submit chat a)
| step_settle a response : awaiting a <> None -> step a (settle response a).

Inductive reachable : App -> Prop :=
| reachable_mounted : reachable mounted
| reachable_step a a' : reachable a -> step a a' -> reachable a'.

(* ================================================================== *)
(** * Vocabulary of the statements *)
(* ================================================================== *)

(** A string reply comes back unchanged when it is not JSON, and when it
    is JSON for a value that is neither an array nor an object with a
    [text] property. *)
Definition passes_through (s : string) : Prop :=
  (exists e, JSON_parse s = Throw e)
  \/ (exists v, JSON_parse s = Normal v /\ isArray v = false
                /\ HasProperty v "text" = false).

(** What the claim's words single out: the value of the [text] field of
    each object that has one, in order, without the falsy ones. *)
Definition textField (item : JsValue) : list JsValue :=
  match item with
  | JObj props =>
      match lookup "text" props with
      | Some v => [v]
      | None => []
      end
  | _ => []
  end.

Definition keptTexts (items : list JsValue) : list JsValue :=
  filter ToBoolean (flat_map textField items).

(** The shapes the claim C7 names: an array all of whose items are
    objects, and a single object with a [text] field. *)
Definition isPlainObject (v : JsValue) : bool :=
  match v with
  | JObj _ => true
  | _ => false
  end.

Definition isArrayOfObjects (v : JsValue) : bool :=
  match v with
  | JArr items => forallb isPlainObject items
  | _ => false
  end.

(** The [catch] of the object branch. *)
Definition caught (c : Completion JsValue) : Completion JsValue :=
  try_catch c (fun _ => Normal (JStr "Error processing response")).

(** [await p] followed by a computation on the value awaited. *)
Definition andThen {A B} (p : Awaited A) (k : A -> Completion B) : Awaited B :=
  match p with
  | Settled c => Settled (bind c k)
  | Pending => Pending
  end.

Notation "x <~ p ;; k" := (andThen p (fun x => k))
  (at level 61, p at next level, right associativity) : js_scope.

(** What [callPuterChat] ends with, as a function of what it reads: the
    chat operation, [puterRef.current] and its arguments. *)
Definition adapterOutcome (chat : ChatOperation) (puter : JsValue)
           (promptText model : string) : Awaited JsValue :=
  if negb (ToBoolean puter) then Throw notLoadedError
  else
    match Get puter "ai" with
    | Throw e => Throw e
    | Normal ai =>
        if negb (ToBoolean ai) then Normal (JStr aiUnavailableAdvisory)
        else
          match Get ai "chat" with
          | Throw e => Throw e
          | Normal chatMethod =>
              if negb (typeof chatMethod =? "function")%string
              then Normal (JStr chatUnavailableAdvisory)
              else
                response <~ chat (JStr promptText) (JObj [("model", JStr model)]) ;;
                extractTextFromResponse response
          end
    end.

Definition recorded (w : World) (promptText model : string) : World :=
  {| page := page w; adapterCalls := (adapterCalls w ++ [(promptText, model)])%list |}.

Definition stubPuter (chatMethod : JsValue) : JsValue :=
  JObj [("ai", JObj [("chat", chatMethod)])].



(** [puterRef.current?.ai] *)
Definition aiOf (p : PageState) : JsValue :=
  match GetOpt (puterRef p) "ai" with
  | Normal ai => ai
  | Throw _ => JUndefined
  end.

(** The guard in front of a submission: a non-blank prompt and no
    submission in flight. *)
Definition accepted (p : PageState) : bool :=
  ToBoolean (JStr (trim (prompt p))) && negb (isLoading p).

(** The test in front of the gateway path. *)
Definition usesGateway (p : PageState) : bool :=
  ScriptStatus_eqb (scriptStatus p) Loaded && ToBoolean (aiOf p).

(** The content of the assistant message a submission appends before
    it returns; none while the gateway call is pending. *)
Definition replyOf (chat : ChatOperation) (p : PageState) : option JsValue :=
  if usesGateway p then
    match adapterOutcome chat (puterRef p) (prompt p) (selectedModel p) with
    | Settled (Normal text) => Some text
    | Settled (Throw _) => Some (JStr (getMockResponse (prompt p)))
    | Pending => None
    end
  else Some (JStr (getMockResponse (prompt p))).

(** The content of the assistant message appended when the gateway call
    of a suspended submission has settled. *)
Definition replyTo (currentPrompt : string) (response : Completion JsValue) : JsValue :=
  match (r <- response ;; extractTextFromResponse r) with
  | Normal text => text
  | Throw _ => JStr (getMockResponse currentPrompt)
  end.

(** The state an accepted submission reaches before anything is
    awaited: the user message is in the conversation, the prompt box is
    empty, the banner is cleared and the page shows that it is busy. *)
Definition sent (w : World) : World :=
  {| page :=
       {| selectedModel := selectedModel (page w);
          prompt := EmptyString;
          messages :=
            (messages (page w)
               ++ [{| role := User; content := JStr (prompt (page w)) |}])%list;
          isLoading := true;
          scriptStatus := scriptStatus (page w);
          errorMessage := None;
          puterRef := puterRef (page w);
          debugMode := debugMode (page w) |};
     adapterCalls := adapterCalls w |}.

(** The state after the assistant message has been appended and the
    [finally] block has run. *)
Definition answered (reply : JsValue) (w : World) : World :=
  {| page :=
       {| selectedModel := selectedModel (page w);
          prompt := prompt (page w);
          messages :=
            (messages (page w) ++ [{| role := Assistant; content := reply |}])%list;
          isLoading := false;
          scriptStatus := scriptStatus (page w);
          errorMessage := errorMessage (page w);
          puterRef := puterRef (page w);
          debugMode := debugMode (page w) |};
     adapterCalls := adapterCalls w |}.

(** The state in which an accepted submission ends the part it runs at
    once; with the gateway in use, the adapter has been invoked. *)
Definition started (w : World) : World :=
  if usesGateway (page w)
  then recorded (sent w) (prompt (page w)) (selectedModel (page w))
  else sent w.

(** The chat operation of a gateway that is down. *)
Definition failingChat : ChatOperation := fun _ _ => Throw (ErrorMsg "network error").

(** The chat operation of a gateway that does not answer. *)
Definition pendingChat : ChatOperation := fun _ _ => Pending.

Definition typed (status : ScriptStatus) (puter : JsValue) (text : string) : World :=
  {| page := {| selectedModel := "gpt-4o"; prompt := text; messages := [welcomeMessage];
                isLoading := false; scriptStatus := status; errorMessage := None;
                puterRef := puter; debugMode := false |};
     adapterCalls := [] |}.

Definition messagesOf (a : App) : list Message := messages (page (world a)).


(** A page whose script has loaded a gateway with a chat function, and
    whose user has typed a greeting. *)
Definition helloTyped : App :=
  typeText "hello" (fireLoad (stubPuter (JFun "chat" None)) mounted).

Definition statusOf (a : App) : ScriptStatus := scriptStatus (page (world a)).

(** The number of loading events that can still happen: the timer, and
    the script element's load or error. *)
Definition eventsLeft (a : App) : nat :=
  ((if timerPending a then 1 else 0) + (if scriptPending a then 1 else 0))%nat.

(** What holds of the loader in every reachable state: the status is
    pending exactly while both the timer and the script element are
    pending; a script element that has fired has cleared the timer; and
    ready is only ever set by the script element's load event. *)
Definition loaderInvariant (a : App) : Prop :=
  (statusOf a = Loading <-> timerPending a = true /\ scriptPending a = true)
  /\ (scriptPending a = false -> timerPending a = false)
  /\ (statusOf a = Loaded -> scriptPending a = false).

(** Whether the first character of a text after its leading JSON white
    space opens an array or an object. *)
Definition opensBracket (s : string) : bool :=
  match skip_ws s with
  | String c _ => ((c =? "[") || (c =? "{"))%char
  | EmptyString => false
  end.

(** A text made of ASCII white space only: tab, line feed, vertical tab,
    form feed, carriage return and space. *)
Fixpoint asciiBlank (s : string) : bool :=
  match s with
  | EmptyString => true
  | String c tl => ws1 c && asciiBlank tl
  end.



(** The [disabled] attribute of the send button:
    [isLoading || !prompt.trim()]. *)
Definition sendDisabled (p : PageState) : bool :=
  isLoading p || negb (ToBoolean (JStr (trim (prompt p)))).

(** A gateway that answers every prompt with a chat completion. *)
Definition completionChat : ChatOperation :=
  fun _ _ => Normal (JObj [("message", JObj [("content", JStr "Four.")])]).

(** A run of exchanges: a user message followed by an assistant
    message, any number of times. *)
Inductive exchanges : list Message -> Prop :=
| exchanges_nil : exchanges []
| exchanges_cons u a rest :
    role u = User -> role a = Assistant -> exchanges rest ->
    exchanges (u :: a :: rest).

(** The error banners the script loader can put up. *)
Definition loaderBanner (m : option string) : Prop :=
  m = None \/ m = Some timeoutMessage \/ m = Some noPuterMessage
  \/ m = Some loadFailedMessage.

(** The end of the conversation while a submission waits for the
    gateway: its user message, still without an answer. *)
Definition openTurn (a : App) : list Message :=
  match awaiting a with
  | Some currentPrompt => [{| role := User; content := JStr currentPrompt |}]
  | None => []
  end.

(** The same, told from the component state alone: a lone user message
    exactly while [isLoading] is set. *)
Definition unanswered (p : PageState) (tail : list Message) : Prop :=
  if isLoading p
  then exists text, tail = [{| role := User; content := JStr text |}]
  else tail = [].

(** What holds of the component in every reachable state.  The handle is
    stored exactly when the status is ready.  The banner is one of the
    loader's; with the status ready it can only be the timeout's, and
    with the status pending there is none; the other two banners are
    only there once the script element has fired.  The conversation is a
    run of exchanges, headed by the welcome message exactly when the
    status is ready, and followed by the user message of the submission
    that waits for the gateway, if one does; [isLoading] is set exactly
    then, which is only possible with the status ready.  The adapter has
    been invoked at most once per exchange or waiting submission, each
    time with the text of a user message of the conversation, and not at
    all unless the status is ready. *)
Definition pageInvariant (a : App) : Prop :=
  (statusOf a = Loaded -> ToBoolean (puterRef (page (world a))) = true)
  /\ (statusOf a <> Loaded -> puterRef (page (world a)) = JNull)
  /\ loaderBanner (errorMessage (page (world a)))
  /\ (statusOf a = Loaded ->
      errorMessage (page (world a)) = None
      \/ errorMessage (page (world a)) = Some timeoutMessage)
  /\ (statusOf a = Loading -> errorMessage (page (world a)) = None)
  /\ (scriptPending a = true ->
      errorMessage (page (world a)) = None
      \/ errorMessage (page (world a)) = Some timeoutMessage)
  /\ (statusOf a = Loaded ->
      exists rest,
        messagesOf a = (welcomeMessage :: rest ++ openTurn a)%list
        /\ exchanges rest
        /\ (2 * length (adapterCalls (world a))
            <= length rest + 2 * length (openTurn a))%nat)
  /\ (statusOf a <> Loaded -> exchanges (messagesOf a) /\ awaiting a = None)
  /\ (statusOf a <> Loaded -> adapterCalls (world a) = [])
  /\ Forall (fun c => In {| role := User; content := JStr (fst c) |} (messagesOf a))
            (adapterCalls (world a))
  /\ isLoading (page (world a))
     = match awaiting a with
       | Some _ => true
       | None => false
       end.

(** A text of ASCII characters only. *)
Fixpoint isAscii (s : string) : bool :=
  match s with
  | EmptyString => true
  | String c tl => (N_of_ascii c <? 128)%N && isAscii tl
  end.

(** A text that is empty or starts with an ASCII character. *)
Definition headAscii (s : string) : bool :=
  match s with
  | EmptyString => true
  | String c _ => (N_of_ascii c <? 128)%N
  end.

(** The lower-case form of a single byte: A to Z are shifted. *)
Definition lowerChar (c : ascii) : ascii :=
  let n := N_of_ascii c in
  if ((65 <=? n) && (n <=? 90))%N then ascii_of_N (n + 32) else c.

(** Whether a character occurs in a text. *)
Fixpoint occurs (c : ascii) (s : string) : bool :=
  match s with
  | EmptyString => false
  | String c' tl => (c' =? c)%char || occurs c tl
  end.

(* ================================================================== *)
(** * The definitions on concrete inputs *)
(* ================================================================== *)

Example NumberToString_int : NumberToString 1500 0 = "1500".
Proof. reflexivity. Qed.
Example NumberToString_frac : NumberToString 15 (-1) = "1.5".
Proof. reflexivity. Qed.
Example NumberToString_small : NumberToString (-25) (-8) = "-2.5e-7".
Proof. reflexivity. Qed.
Example NumberToString_big : NumberToString 1 21 = "1e+21".
Proof. reflexivity. Qed.
Example NumberToString_milli : NumberToString 120 (-5) = "0.0012".
Proof. reflexivity. Qed.
Example JSON_stringify_escapes :
  JSON_stringify (JStr (String "a" (String "009" (String "034" (String "001"
                          (String "237" (String "160" (String "189" "\"))))))))
  = Normal (JStr (jsonText "'a\t\'\u0001\ud83d\\'")).
Proof. reflexivity. Qed.
Example JSON_stringify_toJSON :
  JSON_stringify (JObj [("when", JObj [("toJSON", JFun "toJSON" (Some (JStr "today")))]);
                        ("f", JFun "f" None); ("n", JNum (-5) (-1))])
  = Normal (JStr (jsonText "{'when':'today','n':-0.5}")).
Proof. reflexivity. Qed.
Example JSON_stringify_obj :
  JSON_stringify (JObj [("a", JNum 1 0); ("b", JArr [JStr "x"; JUndefined; JBool true]);
                        ("c", JUndefined)])
  = Normal (JStr (jsonText "{'a':1,'b':['x',null,true]}")).
Proof. reflexivity. Qed.
Example JSON_parse_array :
  JSON_parse (jsonText " [ {'text' : 'a'}, {'text':'b'} ] ")
  = Normal (JArr [JObj [("text", JStr "a")]; JObj [("text", JStr "b")]]).
Proof. reflexivity. Qed.
Example JSON_parse_nested :
  JSON_parse (jsonText "{'b':[1.50,-2e3,true,null],'1':'x\nA','b':{}}")
  = Normal (JObj [("1", JStr (String "x" (String "010" "A"))); ("b", JObj [])]).
Proof. reflexivity. Qed.
Example JSON_parse_number : JSON_parse "-12.5e-1" = Normal (JNum (-125) (-2)).
Proof. reflexivity. Qed.
Example JSON_parse_escapes :
  JSON_parse (jsonText "'a\tb\u0041\u00e9\ud83d\ude00\/'")
  = Normal (JStr (String "a" (String "009" (String "b" (String "A"
              (String "195" (String "169"
                 (String "240" (String "159" (String "152" (String "128" "/"))))))))))).
Proof. reflexivity. Qed.
Example JSON_parse_exponent : JSON_parse " 1E+2 " = Normal (JNum 1 2).
Proof. reflexivity. Qed.
Example JSON_parse_trailing_zeros : JSON_parse "2.50" = Normal (JNum 25 (-1)).
Proof. reflexivity. Qed.
Example JSON_parse_long_integer :
  JSON_parse "1234567890123456789" = Normal (JNum 12345678901234568 2).
Proof. vm_compute. reflexivity. Qed.
Example JSON_parse_odd_integer :
  JSON_parse "9007199254740993" = Normal (JNum 9007199254740992 0).
Proof. vm_compute. reflexivity. Qed.
Example JSON_parse_long_fraction :
  JSON_parse "0.1000000000000000055511151231257827" = Normal (JNum 1 (-1)).
Proof. vm_compute. reflexivity. Qed.
Example JSON_parse_overflow : JSON_parse "-1e400" = Normal (JInfinity true).
Proof. vm_compute. reflexivity. Qed.
Example JSON_parse_underflow : JSON_parse "1e-400" = Normal (JNum 0 0).
Proof. vm_compute. reflexivity. Qed.
Example JSON_parse_smallest : JSON_parse "3e-324" = Normal (JNum 5 (-324)).
Proof. vm_compute. reflexivity. Qed.
Example JSON_parse_largest :
  JSON_parse "1.7976931348623158e308" = Normal (JNum 17976931348623157 292).
Proof. vm_compute. reflexivity. Qed.
Example JSON_parse_past_largest :
  JSON_parse "1.7976931348623159e308" = Normal (JInfinity false).
Proof. vm_compute. reflexivity. Qed.
Example JSON_stringify_not_finite :
  JSON_stringify (JArr [JInfinity false; JNaN; JNum 1 23]) = Normal (JStr "[null,null,1e+23]").
Proof. reflexivity. Qed.
Example JSON_parse_bare_dot : JSON_parse "1." = Throw SyntaxError.
Proof. reflexivity. Qed.
Example JSON_parse_raw_newline :
  JSON_parse (jsonText "'a" ++ newline ++ jsonText "b'") = Throw SyntaxError.
Proof. reflexivity. Qed.
Example JSON_parse_trailing_comma : JSON_parse "[1,]" = Throw SyntaxError.
Proof. reflexivity. Qed.
Example JSON_parse_leading_zero : JSON_parse "01" = Throw SyntaxError.
Proof. reflexivity. Qed.
Example JSON_parse_plain_text : JSON_parse "Hello there" = Throw SyntaxError.
Proof. reflexivity. Qed.
Example JSON_parse_empty : JSON_parse "" = Throw SyntaxError.
Proof. reflexivity. Qed.
Example trim_both : trim (String "009" "  hi there " ++ newline) = "hi there".
Proof. reflexivity. Qed.
Example trim_blank : trim (String "194" (String "160" " ")) = EmptyString.
Proof. reflexivity. Qed.
Example toLowerCase_mixed : toLowerCase "Need HELP, 42!" = "need help, 42!".
Proof. reflexivity. Qed.
Example extract_json_array :
  extractTextFromResponse (JStr (jsonText "[{'text':'a'},{'type':'x'},{'text':''},{'text':'b'}]"))
  = Normal (JStr ("a" ++ newline ++ "b")).
Proof. reflexivity. Qed.
Example extract_json_array_numbers :
  extractTextFromResponse
    (JStr (jsonText "[{'text':1e-400},{'text':1e400},{'text':1234567890123456789}]"))
  = Normal (JStr ("Infinity" ++ newline ++ "1234567890123456800")).
Proof. vm_compute. reflexivity. Qed.
Example extract_json_object :
  extractTextFromResponse (JStr (jsonText "{'text':'x'}")) = Normal (JStr "x").
Proof. reflexivity. Qed.
Example extract_null :
  extractTextFromResponse JNull = Normal (JStr "No response received").
Proof. reflexivity. Qed.
Example extract_nested :
  extractTextFromResponse
    (JObj [("message", JObj [("content", JObj [("text", JStr "hi")])])])
  = Normal (JStr "hi").
Proof. reflexivity. Qed.
Example extract_content_object :
  extractTextFromResponse (JObj [("content", JObj [("a", JNum 1 0)])])
  = Normal (JStr (jsonText "{'a':1}")).
Proof. reflexivity. Qed.
Example extract_custom_toString :
  extractTextFromResponse (JObj [("toString", JFun "() => 'ok'" (Some (JStr "ok")))])
  = Normal (JStr "ok").
Proof. reflexivity. Qed.
Example extract_throwing_toString :
  extractTextFromResponse (JObj [("toString", JFun "() => { throw 1 }" None)])
  = Normal (JStr "Error processing response").
Proof. reflexivity. Qed.
Example handleSubmit_suspended_state :
  handleSubmit pendingChat (page (typed Loaded (stubPuter (JFun "chat" None)) "hello"))
    (typed Loaded (stubPuter (JFun "chat" None)) "hello")
  = (Pending,
     {| page := {| selectedModel := "gpt-4o"; prompt := EmptyString;
                   messages := [welcomeMessage;
                                {| role := User; content := JStr "hello" |}];
                   isLoading := true; scriptStatus := Loaded; errorMessage := None;
                   puterRef := stubPuter (JFun "chat" None); debugMode := false |};
        adapterCalls := [("hello", "gpt-4o")] |}).
Proof. reflexivity. Qed.
Example resumeSubmit_appends :
  messages (page (run (resumeSubmit "hello" (Normal (JObj [("text", JStr "Hi!")])))
                      (run (handleSubmit pendingChat
                              (page (typed Loaded (stubPuter (JFun "chat" None)) "hello")))
                           (typed Loaded (stubPuter (JFun "chat" None)) "hello"))))
  = [welcomeMessage;
     {| role := User; content := JStr "hello" |};
     {| role := Assistant; content := JStr "Hi!" |}].
Proof. reflexivity. Qed.
Example mock_greeting : getMockResponse "Hello there" = mockGreeting.
Proof. reflexivity. Qed.
Example mock_help : getMockResponse "need HELP" = mockHelp.
Proof. reflexivity. Qed.
Example mock_generic : getMockResponse "xyz" = mockGeneric.
Proof. reflexivity. Qed.
Example mock_test : getMockResponse "test" = mockGeneric.
Proof. reflexivity. Qed.

(* ================================================================== *)
(** * Properties of the built-ins *)
(* ================================================================== *)

Lemma try_catch_const {A} (c : Completion A) (a : A) :
  exists r, try_catch c (fun _ => Normal a) = Normal r.
Proof. destruct c as [x|e]; simpl; eauto. Qed.

Lemma Get_object_normal props k : exists x, Get (JObj props) k = Normal x.
Proof. simpl. destruct (lookup k props); eauto. Qed.

Lemma GetOpt_total v k : exists x, GetOpt v k = Normal x.
Proof.
  destruct v as [| | | | | | | |props|]; simpl; eauto.
  destruct (lookup k props); eauto.
Qed.

Lemma HasProperty_true_inv v k :
  HasProperty v k = true ->
  exists props x, v = JObj props /\ lookup k props = Some x /\ Get v k = Normal x.
Proof.
  destruct v as [| | | | | | | |props|]; simpl; try discriminate.
  destruct (lookup k props) as [x|] eqn:E; [|discriminate].
  intros _. exists props, x. auto.
Qed.





(** ** The recursion budget of [JSON_parse] is never used up *)

Lemma skip_ws_length s : (String.length (skip_ws s) <= String.length s)%nat.
Proof.
  induction s as [|c tl IH]; simpl; [lia|].
  destruct (is_ws c); simpl; lia.
Qed.

Lemma starts_with_length c s tl :
  starts_with c s = Some tl -> String.length s = S (String.length tl).
Proof.
  destruct s as [|c' s']; simpl; [discriminate|].
  destruct (c' =? c)%char; [|discriminate]. intros [= ->]. reflexivity.
Qed.

Lemma strip_prefix_length p : forall s r,
  strip_prefix p s = Some r ->
  String.length s = (String.length p + String.length r)%nat.
Proof.
  induction p as [|a p IH]; intros s r; simpl.
  - intros [= ->]. reflexivity.
  - destruct s as [|b s']; [discriminate|].
    destruct (a =? b)%char; [|discriminate].
    intros H. apply IH in H. simpl. lia.
Qed.

Lemma span_digits_length s : forall d r,
  span_digits s = (d, r) ->
  String.length s = (String.length d + String.length r)%nat.
Proof.
  induction s as [|c tl IH]; intros d r; simpl.
  - intros [= <- <-]. reflexivity.
  - destruct (is_digit c).
    + destruct (span_digits tl) as [d' r'] eqn:E. intros [= <- <-].
      specialize (IH d' r' eq_refl). simpl. lia.
    + intros [= <- <-]. reflexivity.
Qed.

Lemma digits1_length s d r :
  digits1 s = Some (d, r) -> (String.length r < String.length s)%nat.
Proof.
  unfold digits1. destruct (span_digits s) as [d' r'] eqn:E.
  apply span_digits_length in E.
  destruct d' as [|c d'']; [discriminate|].
  intros [= <- <-]. simpl in E. lia.
Qed.

Lemma number_int_length s d r :
  number_int s = Some (d, r) -> (String.length r < String.length s)%nat.
Proof.
  unfold number_int. destruct (starts_with "0" s) as [tl|] eqn:E.
  - intros [= <- <-]. apply starts_with_length in E. lia.
  - apply digits1_length.
Qed.

Lemma number_frac_length s d r :
  number_frac s = Some (d, r) -> (String.length r <= String.length s)%nat.
Proof.
  unfold number_frac. destruct (starts_with "." s) as [tl|] eqn:E.
  - intros H. apply digits1_length in H. apply starts_with_length in E. lia.
  - intros [= <- <-]. lia.
Qed.

Lemma number_exp_length s e r :
  number_exp s = Some (e, r) -> (String.length r <= String.length s)%nat.
Proof.
  unfold number_exp.
  assert (Hsign : forall tl,
             (String.length tl < String.length s)%nat ->
             (let (eneg, s') := match starts_with "-" tl, starts_with "+" tl with
                                | Some r, _ => (true, r)
                                | None, Some r => (false, r)
                                | None, None => (false, tl)
                                end in
              match digits1 s' with
              | Some (d, r) => Some ((if eneg then -1 else 1) * Z_of_digits 0 d, r)
              | None => None
              end) = Some (e, r) ->
             (String.length r <= String.length s)%nat).
  { intros tl Htl.
    destruct (starts_with "-" tl) as [r1|] eqn:E1;
      [|destruct (starts_with "+" tl) as [r2|] eqn:E2];
      match goal with
      | |- context [digits1 ?x] => destruct (digits1 x) as [[d r']|] eqn:Ed
      end; try discriminate;
      intros [= _ <-]; apply digits1_length in Ed;
      try (apply starts_with_length in E1);
      try (apply starts_with_length in E2); lia. }
  destruct (starts_with "e" s) as [tl|] eqn:E1.
  - apply Hsign. apply starts_with_length in E1. lia.
  - destruct (starts_with "E" s) as [tl|] eqn:E2.
    + apply Hsign. apply starts_with_length in E2. lia.
    + intros [= _ <-]. lia.
Qed.

Lemma parse_number_length s v r :
  parse_number s = Some (v, r) -> (String.length r < String.length s)%nat.
Proof.
  unfold parse_number.
  assert (Hs1 : forall (neg : bool) s1,
             (String.length s1 <= String.length s)%nat ->
             match number_int s1 with
             | None => None
             | Some (ip, s2) =>
                 match number_frac s2 with
                 | None => None
                 | Some (fp, s3) =>
                     match number_exp s3 with
                     | None => None
                     | Some (e, s5) =>
                         let m := Z_of_digits 0 (ip ++ fp) in
                         Some (NumberValue neg m (e - Z.of_nat (String.length fp)), s5)
                     end
                 end
             end = Some (v, r) ->
             (String.length r < String.length s)%nat).
  { intros neg s1 Hle.
    destruct (number_int s1) as [[ip s2]|] eqn:Ei; [|discriminate].
    destruct (number_frac s2) as [[fp s3]|] eqn:Ef; [|discriminate].
    destruct (number_exp s3) as [[e s5]|] eqn:Ee; [|discriminate].
    intros [= _ <-].
    apply number_int_length in Ei. apply number_frac_length in Ef.
    apply number_exp_length in Ee. lia. }
  destruct (starts_with "-" s) as [tl|] eqn:E.
  - apply (Hs1 true tl). apply starts_with_length in E. lia.
  - apply (Hs1 false s). lia.
Qed.

Lemma scan_string_length n : forall s us rest,
  (String.length s <= n)%nat ->
  scan_string s = Some (us, rest) ->
  (String.length rest < String.length s)%nat.
Proof.
  induction n as [|n IH]; intros s us rest Hn.
  - destruct s; [discriminate|simpl in Hn; lia].
  - destruct s as [|c tl]; [discriminate|].
    simpl in Hn. cbn [scan_string].
    assert (Hcons : forall u s',
               (String.length s' <= n)%nat ->
               match scan_string s' with
               | Some (us0, rest0) => Some (u :: us0, rest0)
               | None => None
               end = Some (us, rest) ->
               (String.length rest < String.length s')%nat).
    { intros u s' Hs'. destruct (scan_string s') as [[us0 rest0]|] eqn:E; [|discriminate].
      intros [= _ <-]. exact (IH s' us0 rest0 Hs' E). }
    destruct (c =? "034")%char.
    { intros [= _ <-]. simpl. lia. }
    destruct (c =? "\")%char.
    + destruct tl as [|e tl']; [discriminate|]. simpl in Hn.
      destruct (e =? "u")%char.
      * destruct tl' as [|h1 [|h2 [|h3 [|h4 tl'']]]]; try discriminate.
        destruct (hex4 h1 h2 h3 h4); [|discriminate].
        intros H. apply Hcons in H; simpl in *; lia.
      * repeat match goal with
               | |- (if ?b then _ else _) = _ -> _ => destruct b
               end; try discriminate;
          intros H; apply Hcons in H; simpl in *; lia.
    + destruct (N_of_ascii c <? 32)%N; [discriminate|].
      intros H. apply Hcons in H; simpl in *; lia.
Qed.

Lemma parse_string_length s str rest :
  parse_string s = Some (str, rest) -> (String.length rest < String.length s)%nat.
Proof.
  unfold parse_string.
  destruct (scan_string s) as [[us r]|] eqn:E; [|discriminate].
  intros [= _ <-]. exact (scan_string_length _ s us r (Nat.le_refl _) E).
Qed.

(** With a budget above twice the length of the text, the three parsing
    functions end with a value or a rejection, and a value has consumed
    at least one character. *)
Lemma parse_fuel fuel :
  (forall s, (2 * String.length s < fuel)%nat -> parse_value fuel s <> Exhausted)
  /\ (forall s v rest, parse_value fuel s = Parsed v rest ->
                       (String.length rest < String.length s)%nat)
  /\ (forall acc s, (2 * String.length s + 1 < fuel)%nat ->
                    parse_elements fuel acc s <> Exhausted)
  /\ (forall acc s v rest, parse_elements fuel acc s = Parsed v rest ->
                           (String.length rest < String.length s)%nat)
  /\ (forall acc s, (2 * String.length s + 1 < fuel)%nat ->
                    parse_members fuel acc s <> Exhausted)
  /\ (forall acc s v rest, parse_members fuel acc s = Parsed v rest ->
                           (String.length rest < String.length s)%nat).
Proof.
  induction fuel as [|fuel (IHv & IHvl & IHe & IHel & IHm & IHml)].
  { repeat split; intros; try lia; discriminate. }
  split; [|split; [|split; [|split; [|split]]]].
  - (* parse_value does not run out *)
    intros s Hs. cbn [parse_value].
    destruct (starts_with "{" s) as [tl|] eqn:E1.
    { apply starts_with_length in E1. pose proof (skip_ws_length tl).
      destruct (starts_with "}" (skip_ws tl)); [discriminate|].
      apply IHm. lia. }
    destruct (starts_with "[" s) as [tl|] eqn:E2.
    { apply starts_with_length in E2. pose proof (skip_ws_length tl).
      destruct (starts_with "]" (skip_ws tl)); [discriminate|].
      apply IHe. lia. }
    destruct (starts_with "034" s) as [tl|].
    { destruct (parse_string tl) as [[str rest]|]; discriminate. }
    destruct (strip_prefix "true" s); [discriminate|].
    destruct (strip_prefix "false" s); [discriminate|].
    destruct (strip_prefix "null" s); [discriminate|].
    destruct (parse_number s) as [[v rest]|]; discriminate.
  - (* parse_value consumes *)
    intros s v rest. cbn [parse_value].
    destruct (starts_with "{" s) as [tl|] eqn:E1.
    { apply starts_with_length in E1. pose proof (skip_ws_length tl).
      destruct (starts_with "}" (skip_ws tl)) as [r|] eqn:E.
      - intros [= _ <-]. apply starts_with_length in E. lia.
      - intros Hp. apply IHml in Hp. lia. }
    destruct (starts_with "[" s) as [tl|] eqn:E2.
    { apply starts_with_length in E2. pose proof (skip_ws_length tl).
      destruct (starts_with "]" (skip_ws tl)) as [r|] eqn:E.
      - intros [= _ <-]. apply starts_with_length in E. lia.
      - intros Hp. apply IHel in Hp. lia. }
    destruct (starts_with "034" s) as [tl|] eqn:E3.
    { apply starts_with_length in E3.
      destruct (parse_string tl) as [[str r]|] eqn:E; [|discriminate].
      intros [= _ <-]. apply parse_string_length in E. lia. }
    destruct (strip_prefix "true" s) as [r|] eqn:E4.
    { intros [= _ <-]. apply strip_prefix_length in E4. simpl in E4. lia. }
    destruct (strip_prefix "false" s) as [r|] eqn:E5.
    { intros [= _ <-]. apply strip_prefix_length in E5. simpl in E5. lia. }
    destruct (strip_prefix "null" s) as [r|] eqn:E6.
    { intros [= _ <-]. apply strip_prefix_length in E6. simpl in E6. lia. }
    destruct (parse_number s) as [[v' r]|] eqn:E7; [|discriminate].
    intros [= _ <-]. apply parse_number_length in E7. exact E7.
  - (* parse_elements does not run out *)
    intros acc s Hs. cbn [parse_elements].
    destruct (parse_value fuel s) as [v rest| |] eqn:Ev.
    + apply IHvl in Ev. pose proof (skip_ws_length rest).
      destruct (starts_with "," (skip_ws rest)) as [tl|] eqn:E.
      * apply starts_with_length in E. pose proof (skip_ws_length tl).
        apply IHe. lia.
      * destruct (starts_with "]" (skip_ws rest)); discriminate.
    + discriminate.
    + exfalso. apply (IHv s); [lia|exact Ev].
  - (* parse_elements consumes *)
    intros acc s v rest. cbn [parse_elements].
    destruct (parse_value fuel s) as [v' rest'| |] eqn:Ev; try discriminate.
    apply IHvl in Ev. pose proof (skip_ws_length rest').
    destruct (starts_with "," (skip_ws rest')) as [tl|] eqn:E.
    + apply starts_with_length in E. pose proof (skip_ws_length tl).
      intros H'. apply IHel in H'. lia.
    + destruct (starts_with "]" (skip_ws rest')) as [tl|] eqn:E'; [|discriminate].
      apply starts_with_length in E'. intros [= _ <-]. lia.
  - (* parse_members does not run out *)
    intros acc s Hs. cbn [parse_members].
    destruct (starts_with "034" s) as [s1|] eqn:E1; [|discriminate].
    apply starts_with_length in E1.
    destruct (parse_string s1) as [[k s2]|] eqn:E2; [|discriminate].
    apply parse_string_length in E2. pose proof (skip_ws_length s2).
    destruct (starts_with ":" (skip_ws s2)) as [s3|] eqn:E3; [|discriminate].
    apply starts_with_length in E3. pose proof (skip_ws_length s3).
    destruct (parse_value fuel (skip_ws s3)) as [v rest| |] eqn:Ev.
    + apply IHvl in Ev. pose proof (skip_ws_length rest).
      destruct (starts_with "," (skip_ws rest)) as [tl|] eqn:E.
      * apply starts_with_length in E. pose proof (skip_ws_length tl).
        apply IHm. lia.
      * destruct (starts_with "}" (skip_ws rest)); discriminate.
    + discriminate.
    + exfalso. apply (IHv (skip_ws s3)); [lia|exact Ev].
  - (* parse_members consumes *)
    intros acc s v rest. cbn [parse_members].
    destruct (starts_with "034" s) as [s1|] eqn:E1; [|discriminate].
    apply starts_with_length in E1.
    destruct (parse_string s1) as [[k s2]|] eqn:E2; [|discriminate].
    apply parse_string_length in E2. pose proof (skip_ws_length s2).
    destruct (starts_with ":" (skip_ws s2)) as [s3|] eqn:E3; [|discriminate].
    apply starts_with_length in E3. pose proof (skip_ws_length s3).
    destruct (parse_value fuel (skip_ws s3)) as [v' rest'| |] eqn:Ev; try discriminate.
    apply IHvl in Ev. pose proof (skip_ws_length rest').
    destruct (starts_with "," (skip_ws rest')) as [tl|] eqn:E.
    + apply starts_with_length in E. pose proof (skip_ws_length tl).
      intros H'. apply IHml in H'. lia.
    + destruct (starts_with "}" (skip_ws rest')) as [tl|] eqn:E'; [|discriminate].
      apply starts_with_length in E'. intros [= _ <-]. lia.
Qed.

(** [JSON_parse] gives its parser budget enough. *)
Lemma parse_value_fuel s :
  parse_value (S (2 * String.length s)) (skip_ws s) <> Exhausted.
Proof.
  apply (proj1 (parse_fuel (S (2 * String.length s)))).
  pose proof (skip_ws_length s). lia.
Qed.

(* ================================================================== *)
(** * The response normaliser *)
(* ================================================================== *)

(** The normaliser never throws: both of its [try] blocks have a
    [catch] that returns. *)
Lemma extractTextFromResponse_total response :
  exists r, extractTextFromResponse response = Normal r.
Proof.
  destruct response; simpl; eauto using try_catch_const.
  all: try (destruct b; simpl; eauto using try_catch_const).
  all: try (destruct (negb (mant =? 0)); simpl; eauto using try_catch_const).
  all: apply try_catch_const.
Qed.

(** ** String replies *)

Lemma string_passes_through s :
  passes_through s -> extractTextFromResponse (JStr s) = Normal (JStr s).
Proof.
  intros [[e He] | [v (Hv & Harr & Htext)]]; unfold extractTextFromResponse.
  - rewrite He. reflexivity.
  - rewrite Hv. simpl. rewrite Harr, Htext, andb_false_r.
    destruct (ToBoolean v && (typeof v =? "object")%string); reflexivity.
Qed.

Lemma textOfItem_spec item :
  exists t, textOfItem item = Normal t
            /\ filter ToBoolean [t] = filter ToBoolean (textField item).
Proof.
  unfold textOfItem.
  destruct item as [| |b|m e|neg| |s|items|props|src call]; simpl;
    try (eexists; split; [reflexivity|reflexivity]).
  - destruct b; eexists; split; reflexivity.
  - destruct (negb (m =? 0)); eexists; split; reflexivity.
  - destruct (negb (s =? EmptyString)%string); eexists; split; reflexivity.
  - destruct (lookup "text" props) as [v|]; eexists; split; reflexivity.
Qed.

Lemma mapM_textOfItem items :
  exists texts, mapM textOfItem items = Normal texts
                /\ filter ToBoolean texts = keptTexts items.
Proof.
  induction items as [|item tl (texts & Hm & Hf)].
  - exists []. split; reflexivity.
  - destruct (textOfItem_spec item) as (t & Ht & Hk).
    exists (t :: texts). split.
    + simpl. rewrite Ht. simpl. rewrite Hm. reflexivity.
    + unfold keptTexts. simpl flat_map. rewrite filter_app.
      change (t :: texts) with ([t] ++ texts)%list.
      rewrite filter_app, Hk. f_equal. exact Hf.
Qed.

(** On truthy elements [join] converts each one and puts the separator
    between them. *)
Lemma join_truthy sep items : forall strs,
  Forall (fun v => ToBoolean v = true) items ->
  mapM ToString items = Normal strs ->
  join sep items = Normal (concat_with sep strs).
Proof.
  unfold join.
  induction items as [|x tl IH]; intros strs Hall Hm.
  - simpl in Hm. injection Hm as <-. reflexivity.
  - inversion Hall as [|? ? Hx Htl]; subst.
    simpl in Hm.
    destruct (ToString x) as [sx|] eqn:Ex; [|discriminate].
    simpl in Hm.
    destruct (mapM ToString tl) as [stl|] eqn:Etl; [|discriminate].
    simpl in Hm. injection Hm as <-.
    specialize (IH stl Htl eq_refl).
    cbn [join_with].
    assert (Helt : match x with
                   | JUndefined | JNull => Normal EmptyString
                   | _ => ToString x
                   end = Normal sx).
    { destruct x; try exact Ex; discriminate. }
    rewrite Helt. cbn [bind].
    destruct tl as [|y tl'].
    + simpl in Etl. injection Etl as <-. reflexivity.
    + rewrite IH. cbn [bind].
      destruct stl as [|sy stl'].
      * simpl in Etl. destruct (ToString y); [|discriminate].
        simpl in Etl. destruct (mapM ToString tl'); discriminate.
      * reflexivity.
Qed.

Lemma keptTexts_truthy items : Forall (fun v => ToBoolean v = true) (keptTexts items).
Proof.
  unfold keptTexts. apply Forall_forall. intros v Hin.
  apply filter_In in Hin. tauto.
Qed.

Lemma joinTexts_spec items strs :
  mapM ToString (keptTexts items) = Normal strs ->
  joinTexts items = Normal (JStr (concat_with newline strs)).
Proof.
  intros Hs. unfold joinTexts.
  destruct (mapM_textOfItem items) as (texts & Hm & Hf).
  rewrite Hm. cbn [bind]. rewrite Hf.
  rewrite (join_truthy newline _ strs (keptTexts_truthy items) Hs).
  reflexivity.
Qed.

(** When the conversion of a truthy element fails, so does [join]. *)
Lemma join_truthy_throw sep items : forall e,
  Forall (fun v => ToBoolean v = true) items ->
  mapM ToString items = Throw e ->
  join sep items = Throw e.
Proof.
  unfold join.
  induction items as [|x tl IH]; intros e Hall Hm; [discriminate|].
  inversion Hall as [|? ? Hx Htl]; subst.
  simpl in Hm. cbn [join_with].
  assert (Helt : match x with
                 | JUndefined | JNull => Normal EmptyString
                 | _ => ToString x
                 end = ToString x).
  { destruct x; try reflexivity; discriminate. }
  rewrite Helt.
  destruct (ToString x) as [sx|ex]; [|simpl in *; congruence].
  cbn [bind] in *.
  destruct (mapM ToString tl) as [stl|etl] eqn:Etl; [discriminate|].
  simpl in Hm. injection Hm as <-.
  rewrite (IH etl Htl eq_refl).
  destruct tl; [discriminate|reflexivity].
Qed.

Lemma joinTexts_throw items e :
  mapM ToString (keptTexts items) = Throw e -> joinTexts items = Throw e.
Proof.
  intros Hs. unfold joinTexts.
  destruct (mapM_textOfItem items) as (texts & Hm & Hf).
  rewrite Hm. cbn [bind]. rewrite Hf.
  rewrite (join_truthy_throw newline _ e (keptTexts_truthy items) Hs).
  reflexivity.
Qed.

Lemma mapM_ToString_strings texts : mapM ToString (map JStr texts) = Normal texts.
Proof.
  induction texts as [|t tl IH]; [reflexivity|].
  simpl. rewrite IH. reflexivity.
Qed.

(** C5, as stated, fails: the text below parses as an array of two
    objects, each with a truthy [text] field, and yet the result is not
    a join of the two values; [join] cannot convert the second one to a
    string, the exception is caught by the string branch, and the text
    comes back unchanged. *)
Lemma C5_unconvertible_text_returns_input :
  JSON_parse (jsonText "[{'text':'a'},{'text':{'toString':0}}]")
  = Normal (JArr [JObj [("text", JStr "a")];
                  JObj [("text", JObj [("toString", JNum 0 0)])]])
  /\ isArrayOfObjects (JArr [JObj [("text", JStr "a")];
                             JObj [("text", JObj [("toString", JNum 0 0)])]]) = true
  /\ keptTexts [JObj [("text", JStr "a")]; JObj [("text", JObj [("toString", JNum 0 0)])]]
     = [JStr "a"; JObj [("toString", JNum 0 0)]]
  /\ ToString (JObj [("toString", JNum 0 0)]) = Throw TypeError
  /\ extractTextFromResponse (JStr (jsonText "[{'text':'a'},{'text':{'toString':0}}]"))
     = Normal (JStr (jsonText "[{'text':'a'},{'text':{'toString':0}}]")).
Proof. repeat split. Qed.

(** C5, amended.  When a string reply parses as a JSON array, the kept
    values are the [text] values of the object items that have the
    field, in order, without the falsy ones.  If each of them converts
    to a string the way [join] converts its elements, the result is the
    newline-separated join of the converted values; if one does not, the
    reply comes back unchanged.  Kept values that are strings are joined
    as they are, with nothing to convert.  Every text that encodes the
    array of [{text: a}] and [{text: b}] gives a, newline, b, and an
    empty array gives the empty string. *)
Theorem C5_json_array_texts_joined :
  (forall s items,
      JSON_parse s = Normal (JArr items) ->
      (forall strs,
          mapM ToString (keptTexts items) = Normal strs ->
          extractTextFromResponse (JStr s) = Normal (JStr (concat_with newline strs)))
      /\ (forall e,
             mapM ToString (keptTexts items) = Throw e ->
             extractTextFromResponse (JStr s) = Normal (JStr s)))
  /\ (forall s items texts,
         JSON_parse s = Normal (JArr items) ->
         keptTexts items = map JStr texts ->
         extractTextFromResponse (JStr s) = Normal (JStr (concat_with newline texts)))
  /\ (forall s,
         JSON_parse s = Normal (JArr [JObj [("text", JStr "a")]; JObj [("text", JStr "b")]]) ->
         extractTextFromResponse (JStr s) = Normal (JStr ("a" ++ newline ++ "b")))
  /\ (forall s,
         JSON_parse s = Normal (JArr []) ->
         extractTextFromResponse (JStr s) = Normal (JStr EmptyString))
  /\ extractTextFromResponse (JStr (jsonText "[{'text': 'a'}, {'text': 'b'}]"))
     = Normal (JStr ("a" ++ newline ++ "b")).
Proof.
  assert (G : forall s items strs,
             JSON_parse s = Normal (JArr items) ->
             mapM ToString (keptTexts items) = Normal strs ->
             extractTextFromResponse (JStr s) = Normal (JStr (concat_with newline strs))).
  { intros s items strs Hp Hs. unfold extractTextFromResponse.
    rewrite Hp. cbn [bind ToBoolean isArray andb elements].
    rewrite (joinTexts_spec items strs Hs). reflexivity. }
  split; [|split; [|split; [|split]]].
  - intros s items Hp. split; [intros strs; exact (G s items strs Hp)|].
    intros e He. unfold extractTextFromResponse.
    rewrite Hp. cbn [bind ToBoolean isArray andb elements].
    rewrite (joinTexts_throw items e He). reflexivity.
  - intros s items texts Hp Hk. apply (G s items texts Hp).
    rewrite Hk. apply mapM_ToString_strings.
  - intros s Hp. exact (G s _ ["a"; "b"] Hp eq_refl).
  - intros s Hp. exact (G s _ [] Hp eq_refl).
  - reflexivity.
Qed.

(** C5 on a reply with five items, two of which contribute nothing and
    one of which holds a number, and on a reply with a value that does
    not convert. *)
Lemma C5_json_array_texts_joined_witness :
  extractTextFromResponse
    (JStr (jsonText "[{'text':'first'},{'type':'image'},{'text':''},{'text':42},{'text':'last'}]"))
  = Normal (JStr ("first" ++ newline ++ "42" ++ newline ++ "last"))
  /\ extractTextFromResponse (JStr (jsonText "[{'text':[1,{}]}]"))
     = Normal (JStr "1,[object Object]")
  /\ extractTextFromResponse (JStr (jsonText "[{'text':[1,{'toString':null}]}]"))
     = Normal (JStr (jsonText "[{'text':[1,{'toString':null}]}]")).
Proof.
  split; [|split].
  - exact (proj1 (proj1 C5_json_array_texts_joined
             (jsonText "[{'text':'first'},{'type':'image'},{'text':''},{'text':42},{'text':'last'}]")
             [JObj [("text", JStr "first")]; JObj [("type", JStr "image")];
              JObj [("text", JStr EmptyString)]; JObj [("text", JNum 42 0)];
              JObj [("text", JStr "last")]]
             eq_refl)
           ["first"; "42"; "last"] eq_refl).
  - exact (proj1 (proj1 C5_json_array_texts_joined
             (jsonText "[{'text':[1,{}]}]")
             [JObj [("text", JArr [JNum 1 0; JObj []])]] eq_refl)
           ["1,[object Object]"] eq_refl).
  - exact (proj2 (proj1 C5_json_array_texts_joined
             (jsonText "[{'text':[1,{'toString':null}]}]")
             [JObj [("text", JArr [JNum 1 0; JObj [("toString", JNull)]])]] eq_refl)
           TypeError eq_refl).
Defined.

(** C7, as stated, fails: the text [["a"]] parses as JSON, is neither an
    array of objects nor an object with a [text] field, and yet does not
    come back unchanged; the normaliser answers with the empty string. *)
Lemma C7_array_of_strings_not_unchanged :
  JSON_parse (jsonText "['a']") = Normal (JArr [JStr "a"])
  /\ isArrayOfObjects (JArr [JStr "a"]) = false
  /\ HasProperty (JArr [JStr "a"]) "text" = false
  /\ extractTextFromResponse (JStr (jsonText "['a']")) = Normal (JStr EmptyString)
  /\ extractTextFromResponse (JStr (jsonText "['a']")) <> Normal (JStr (jsonText "['a']")).
Proof. repeat split. discriminate. Qed.

(** C7, amended.  A string reply comes back unchanged when it is not
    valid JSON, and when it parses as JSON for a value that is neither an
    array (whatever its items) nor an object with a [text] field. *)
Theorem C7_string_unchanged s :
  (exists e, JSON_parse s = Throw e)
  \/ (exists v, JSON_parse s = Normal v /\ isArray v = false
                /\ HasProperty v "text" = false) ->
  extractTextFromResponse (JStr s) = Normal (JStr s).
Proof. exact (string_passes_through s). Qed.

(** C7 on a plain sentence and on the JSON text of an object without a
    [text] field. *)
Lemma C7_string_unchanged_witness :
  extractTextFromResponse (JStr "Hello there") = Normal (JStr "Hello there")
  /\ extractTextFromResponse (JStr (jsonText "{'type':'note','n':[1,2]}"))
     = Normal (JStr (jsonText "{'type':'note','n':[1,2]}")).
Proof.
  split.
  - apply (C7_string_unchanged "Hello there").
    left. exists SyntaxError. reflexivity.
  - apply (C7_string_unchanged (jsonText "{'type':'note','n':[1,2]}")).
    right. eexists. split; [reflexivity|]. split; reflexivity.
Defined.

(** C8, as stated, fails: the reply [{text: "[]"}] normalises to the
    string [[]], and normalising that string again gives the empty
    string. *)
Lemma C8_renormalising_changes_output :
  extractTextFromResponse (JObj [("text", JStr "[]")]) = Normal (JStr "[]")
  /\ extractTextFromResponse (JStr "[]") = Normal (JStr EmptyString)
  /\ extractTextFromResponse (JStr "[]") <> Normal (JStr "[]").
Proof. repeat split. discriminate. Qed.

(** C8, amended.  An output string of the normaliser that is not valid
    JSON, or that parses as JSON for a value that is neither an array nor
    an object with a [text] field, is returned unchanged when it is
    normalised again; the two literals of the normaliser are such
    strings. *)
Theorem C8_renormalising_plain_output :
  (forall reply s,
      extractTextFromResponse reply = Normal (JStr s) ->
      passes_through s ->
      extractTextFromResponse (JStr s) = Normal (JStr s))
  /\ extractTextFromResponse (JStr "No response received")
     = Normal (JStr "No response received")
  /\ extractTextFromResponse (JStr "Error processing response")
     = Normal (JStr "Error processing response").
Proof.
  split; [|split; reflexivity].
  intros reply s _ Hs. exact (string_passes_through s Hs).
Qed.

(** C8 on the output for a reply whose [message.content] is a plain
    sentence. *)
Lemma C8_renormalising_plain_output_witness :
  extractTextFromResponse
    (JObj [("message", JObj [("content", JStr "It is 5 o'clock.")])])
  = Normal (JStr "It is 5 o'clock.")
  /\ extractTextFromResponse (JStr "It is 5 o'clock.") = Normal (JStr "It is 5 o'clock.").
Proof.
  split; [reflexivity|].
  apply (proj1 C8_renormalising_plain_output
           (JObj [("message", JObj [("content", JStr "It is 5 o'clock.")])])).
  - reflexivity.
  - left. exists SyntaxError. reflexivity.
Defined.

(** ** Object replies *)

(** C1.  The normaliser never throws, whatever the reply, and a failure
    inside the traversal of an object reply gives the literal of its
    [catch]; but what it returns is not always a string.  The value of a
    truthy [text] field is handed back as it is: for the reply
    [{text: 42}], and for the JSON text of the same object, the result
    is the number 42, whereas the [content] field next to it is
    converted ([{content: 42}] gives the string 42). *)
Theorem C1_total_but_not_always_string :
  (forall response, exists r, extractTextFromResponse response = Normal r)
  /\ extractTextFromResponse (JObj [("content", JObj [("toJSON", JFun "toJSON" None)])])
     = Normal (JStr "Error processing response")
  /\ extractTextFromResponse (JObj [("text", JNum 42 0)]) = Normal (JNum 42 0)
  /\ extractTextFromResponse (JStr (jsonText "{'text': 42}")) = Normal (JNum 42 0)
  /\ extractTextFromResponse (JObj [("content", JNum 42 0)]) = Normal (JStr "42").
Proof.
  split; [exact extractTextFromResponse_total|].
  repeat split.
Qed.

(** How the normaliser starts on a plain object: after the three reads
    of its first test, the cascade runs under the [catch]. *)
Lemma extract_object_unfold props message mcontent mtext :
  Get (JObj props) "message" = Normal message ->
  GetOpt message "content" = Normal mcontent ->
  GetOpt mcontent "text" = Normal mtext ->
  extractTextFromResponse (JObj props)
  = caught
      (if ToBoolean mtext then Normal mtext
       else
         text <- Get (JObj props) "text" ;;
         if ToBoolean text then Normal text
         else
           content <- Get (JObj props) "content" ;;
           if ToBoolean content then
             if (typeof content =? "string")%string then Normal content
             else JSON_stringify content
           else if ToBoolean mcontent then
             if (typeof mcontent =? "string")%string then Normal mcontent
             else if isArray mcontent then joinTexts (elements mcontent)
             else JSON_stringify mcontent
           else
             method <- custom_toString (JObj props) ;;
             match method with
             | Some call =>
                 stringValue <- call ;;
                 if strict_neq_string stringValue "[object Object]"
                 then Normal stringValue
                 else JSON_stringify (JObj props)
             | None => JSON_stringify (JObj props)
             end).
Proof.
  intros Hm Hc Ht. unfold extractTextFromResponse, caught.
  change (negb (ToBoolean (JObj props))) with false. cbv iota.
  change (isArray (JObj props)) with false. cbv iota.
  rewrite Hm. cbn [bind]. rewrite Hc. cbn [bind]. rewrite Ht. cbn [bind].
  reflexivity.
Qed.

Lemma ToBoolean_nonempty_string s : s <> EmptyString -> ToBoolean (JStr s) = true.
Proof.
  intros H. simpl. destruct (String.eqb_spec s EmptyString); [contradiction|reflexivity].
Qed.

(** C6, as stated, fails: the reply [{text: ""}] has a top-level [text]
    field and no [message], so the second recogniser of the claim would
    return the field's value, the empty string; the normaliser skips the
    field, because its value is falsy, and ends with the JSON
    serialisation of the whole reply. *)
Lemma C6_empty_text_field_not_returned :
  lookup "text" [("text", JStr EmptyString)] = Some (JStr EmptyString)
  /\ lookup "message" [("text", JStr EmptyString)] = None
  /\ extractTextFromResponse (JObj [("text", JStr EmptyString)])
     = Normal (JStr (jsonText "{'text':''}"))
  /\ extractTextFromResponse (JObj [("text", JStr EmptyString)])
     <> Normal (JStr EmptyString).
Proof. repeat split. discriminate. Qed.

Lemma strict_neq_string_spec v lit :
  strict_neq_string v lit = false <-> v = JStr lit.
Proof.
  destruct v; simpl; try (split; [discriminate|intros [=]]).
  destruct (String.eqb_spec s lit) as [->|Hne]; simpl; split;
    try reflexivity; try discriminate; intros [=]; contradiction.
Qed.

Lemma custom_toString_object props :
  custom_toString (JObj props)
  = match lookup "toString" props with
    | Some (JFun _ (Some r)) => Normal (Some (Normal r))
    | Some (JFun _ None) => Normal (Some (Throw HostThrow))
    | _ => Normal None
    end.
Proof. reflexivity. Qed.

(** C6, amended.  On a plain object reply the recognisers are tried in
    this order, and the first one whose value is truthy (a field that is
    present but empty, zero, false or null is passed over) decides: a
    truthy [message.content.text] is returned as it is, string or not;
    else a truthy [text] is returned as it is; else a truthy [content]
    is returned as it is if a string and JSON-serialised otherwise; else
    a truthy [message.content] is returned as it is if a string, put
    through the per-item [text] extraction and join if an array, and
    JSON-serialised otherwise; else, when the reply has a [toString]
    function of its own, what that function returns is returned as it
    is, unless it is the string of the default conversion; in every
    case that is left the whole reply is JSON-serialised.  An exception
    on the way (from [toString], a serialisation or a join) gives the
    literal of the [catch].  The five reads the cascade starts from
    always succeed on a plain object, so one of the cases applies to
    every such reply.  The two replies of the claim give [hi] and the
    serialisation of [{a: 1}]. *)
Theorem C6_object_cascade :
  (forall props message mcontent mtext text content,
      Get (JObj props) "message" = Normal message ->
      GetOpt message "content" = Normal mcontent ->
      GetOpt mcontent "text" = Normal mtext ->
      Get (JObj props) "text" = Normal text ->
      Get (JObj props) "content" = Normal content ->
      (ToBoolean mtext = true ->
       extractTextFromResponse (JObj props) = Normal mtext)
      /\ (ToBoolean mtext = false -> ToBoolean text = true ->
          extractTextFromResponse (JObj props) = Normal text)
      /\ (ToBoolean mtext = false -> ToBoolean text = false ->
          ToBoolean content = true ->
          extractTextFromResponse (JObj props)
          = if (typeof content =? "string")%string then Normal content
            else caught (JSON_stringify content))
      /\ (ToBoolean mtext = false -> ToBoolean text = false ->
          ToBoolean content = false -> ToBoolean mcontent = true ->
          extractTextFromResponse (JObj props)
          = if (typeof mcontent =? "string")%string then Normal mcontent
            else if isArray mcontent then caught (joinTexts (elements mcontent))
            else caught (JSON_stringify mcontent))
      /\ (ToBoolean mtext = false -> ToBoolean text = false ->
          ToBoolean content = false -> ToBoolean mcontent = false ->
          (forall src r,
              lookup "toString" props = Some (JFun src (Some r)) ->
              (r <> JStr "[object Object]" ->
               extractTextFromResponse (JObj props) = Normal r)
              /\ (r = JStr "[object Object]" ->
                  extractTextFromResponse (JObj props)
                  = caught (JSON_stringify (JObj props))))
          /\ (forall src,
                 lookup "toString" props = Some (JFun src None) ->
                 extractTextFromResponse (JObj props)
                 = Normal (JStr "Error processing response"))
          /\ ((forall src call, lookup "toString" props <> Some (JFun src call)) ->
              extractTextFromResponse (JObj props)
              = caught (JSON_stringify (JObj props)))))
  /\ (forall props,
         exists message mcontent mtext text content,
           Get (JObj props) "message" = Normal message
           /\ GetOpt message "content" = Normal mcontent
           /\ GetOpt mcontent "text" = Normal mtext
           /\ Get (JObj props) "text" = Normal text
           /\ Get (JObj props) "content" = Normal content)
  /\ extractTextFromResponse
       (JObj [("message", JObj [("content", JObj [("text", JStr "hi")])])])
     = Normal (JStr "hi")
  /\ (extractTextFromResponse (JObj [("content", JObj [("a", JNum 1 0)])])
      = JSON_stringify (JObj [("a", JNum 1 0)])
      /\ JSON_stringify (JObj [("a", JNum 1 0)]) = Normal (JStr (jsonText "{'a':1}"))).
Proof.
  split; [|split; [|repeat split]].
  - intros props message mcontent mtext text content Hm Hc Ht Htext Hcontent.
    rewrite (extract_object_unfold props message mcontent mtext Hm Hc Ht).
    rewrite Htext, Hcontent. cbn [bind].
    split; [|split; [|split; [|split]]].
    + intros ->. reflexivity.
    + intros -> ->. reflexivity.
    + intros -> -> ->.
      destruct (typeof content =? "string")%string; reflexivity.
    + intros -> -> -> ->.
      destruct (typeof mcontent =? "string")%string; [reflexivity|].
      destruct (isArray mcontent); reflexivity.
    + intros -> -> -> ->. rewrite custom_toString_object.
      split; [|split].
      * intros src r ->. cbn [bind]. split.
        -- intros Hr. destruct (strict_neq_string r "[object Object]") eqn:E;
             [reflexivity|].
           apply strict_neq_string_spec in E. contradiction.
        -- intros ->. reflexivity.
      * intros src ->. reflexivity.
      * intros Hno. destruct (lookup "toString" props) as [[]|]; try reflexivity.
        contradiction (Hno src call). reflexivity.
  - intros props.
    destruct (Get_object_normal props "message") as [message Hm].
    destruct (GetOpt_total message "content") as [mcontent Hc].
    destruct (GetOpt_total mcontent "text") as [mtext Ht].
    destruct (Get_object_normal props "text") as [text Htext].
    destruct (Get_object_normal props "content") as [content Hcontent].
    exists message, mcontent, mtext, text, content. auto.
Qed.

(** C6 on a chat completion whose [message.content] is an array of text
    parts, where the fourth recogniser decides; on a reply with a number
    as [text] next to a [content]; and on a reply whose own [toString]
    returns a number. *)
Lemma C6_object_cascade_witness :
  extractTextFromResponse
    (JObj [("id", JNum 7 0);
           ("message",
            JObj [("role", JStr "assistant");
                  ("content", JArr [JObj [("type", JStr "text"); ("text", JStr "a")];
                                    JObj [("type", JStr "text"); ("text", JStr "b")]])])])
  = Normal (JStr ("a" ++ newline ++ "b"))
  /\ extractTextFromResponse (JObj [("text", JNum 42 0); ("content", JStr "c")])
     = Normal (JNum 42 0)
  /\ extractTextFromResponse (JObj [("toString", JFun "() => 5" (Some (JNum 5 0)))])
     = Normal (JNum 5 0).
Proof.
  split; [|split].
  - exact (proj1 (proj2 (proj2 (proj2
             (proj1 C6_object_cascade
                [("id", JNum 7 0);
                 ("message",
                  JObj [("role", JStr "assistant");
                        ("content", JArr [JObj [("type", JStr "text"); ("text", JStr "a")];
                                          JObj [("type", JStr "text"); ("text", JStr "b")]])])]
                (JObj [("role", JStr "assistant");
                       ("content", JArr [JObj [("type", JStr "text"); ("text", JStr "a")];
                                         JObj [("type", JStr "text"); ("text", JStr "b")]])])
                (JArr [JObj [("type", JStr "text"); ("text", JStr "a")];
                       JObj [("type", JStr "text"); ("text", JStr "b")]])
                JUndefined JUndefined JUndefined
                eq_refl eq_refl eq_refl eq_refl eq_refl))))
             eq_refl eq_refl eq_refl eq_refl).
  - exact (proj1 (proj2
             (proj1 C6_object_cascade
                [("text", JNum 42 0); ("content", JStr "c")]
                JUndefined JUndefined JUndefined (JNum 42 0) (JStr "c")
                eq_refl eq_refl eq_refl eq_refl eq_refl))
             eq_refl eq_refl).
  - exact (proj1 (proj1 (proj2 (proj2 (proj2 (proj2
             (proj1 C6_object_cascade
                [("toString", JFun "() => 5" (Some (JNum 5 0)))]
                JUndefined JUndefined JUndefined JUndefined JUndefined
                eq_refl eq_refl eq_refl eq_refl eq_refl))))
             eq_refl eq_refl eq_refl eq_refl)
             "() => 5" (JNum 5 0) eq_refl)
           ltac:(discriminate)).
Defined.

(* ================================================================== *)
(** * The gateway client adapter *)
(* ================================================================== *)

(** The adapter changes nothing of the component state; its [catch]
    rethrows. *)
Lemma callPuterChat_eq chat promptText model w :
  callPuterChat chat promptText model w
  = (adapterOutcome chat (puterRef (page w)) promptText model,
     recorded w promptText model).
Proof.
  unfold callPuterChat, adapterOutcome, hbind, htry, recordAdapterCall, readPuterRef,
    lift, ret, await, andThen, recorded.
  cbn [page adapterCalls].
  destruct (negb (ToBoolean (puterRef (page w)))); [reflexivity|].
  destruct (Get (puterRef (page w)) "ai") as [ai|e]; [|reflexivity].
  destruct (negb (ToBoolean ai)); [reflexivity|].
  destruct (Get ai "chat") as [chatMethod|e]; [|reflexivity].
  destruct (negb (typeof chatMethod =? "function")%string); [reflexivity|].
  destruct (chat (JStr promptText) (JObj [("model", JStr model)])) as [[response|e]|];
    try reflexivity.
  cbn [bind].
  destruct (extractTextFromResponse response); reflexivity.
Qed.

Lemma Get_truthy_normal v k : ToBoolean v = true -> exists x, Get v k = Normal x.
Proof.
  destruct v as [| | | | | | | |props|]; simpl; try discriminate; eauto.
  destruct (lookup k props); eauto.
Qed.



(* ================================================================== *)
(** * The orchestrator *)
(* ================================================================== *)

(** What the continuation of a suspended submission does, in one piece:
    it appends the assistant message and clears [isLoading].  Its outer
    [catch] is never entered. *)
Lemma resumeSubmit_eq currentPrompt response w :
  resumeSubmit currentPrompt response w
  = (Settled (Normal tt), answered (replyTo currentPrompt response) w).
Proof.
  unfold resumeSubmit, replyTo, answered, hfinally, htry, hbind, setIsLoading,
    setErrorMessage, setMessages, update, lift, ret.
  destruct response as [r|e]; cbn [bind].
  - destruct (extractTextFromResponse r); reflexivity.
  - reflexivity.
Qed.

(** What a submission does, in one piece, up to its end or to the
    [await] at which it is left suspended.  The outer [catch] is never
    entered. *)
Lemma handleSubmit_eq chat w :
  handleSubmit chat (page w) w
  = if accepted (page w) then
      match replyOf chat (page w) with
      | Some reply => (Settled (Normal tt), answered reply (started w))
      | None => (Pending, started w)
      end
    else (Settled (Normal tt), w).
Proof.
  destruct w as [p calls]. cbn [page adapterCalls].
  unfold handleSubmit, accepted, replyOf, started, usesGateway, aiOf.
  destruct (ToBoolean (JStr (trim (prompt p)))); [|reflexivity].
  destruct (isLoading p); [reflexivity|].
  cbn [negb orb andb].
  unfold hfinally, htry, hbind, setIsLoading, setErrorMessage, setMessages, setPrompt,
    update, readPuterRef, lift, ret.
  cbn [page adapterCalls selectedModel prompt messages isLoading scriptStatus
       errorMessage puterRef debugMode fst snd].
  destruct (ScriptStatus_eqb (scriptStatus p) Loaded).
  - cbn [page adapterCalls puterRef andb].
    destruct (GetOpt_total (puterRef p) "ai") as [ai Hai]. rewrite Hai.
    destruct (ToBoolean ai).
    + rewrite callPuterChat_eq. unfold recorded, sent, answered.
      cbn [page adapterCalls selectedModel prompt messages isLoading scriptStatus
           errorMessage puterRef debugMode fst snd].
      destruct (adapterOutcome chat (puterRef p) (prompt p) (selectedModel p))
        as [[text|e]|]; reflexivity.
    + reflexivity.
  - reflexivity.
Qed.

Lemma handleSubmit_run chat w :
  run (handleSubmit chat (page w)) w
  = if accepted (page w) then
      match replyOf chat (page w) with
      | Some reply => answered reply (started w)
      | None => started w
      end
    else w.
Proof.
  unfold run. rewrite handleSubmit_eq.
  destruct (accepted (page w)); [|reflexivity].
  destruct (replyOf chat (page w)); reflexivity.
Qed.

Lemma messages_started w :
  messages (page (started w))
  = (messages (page w) ++ [{| role := User; content := JStr (prompt (page w)) |}])%list.
Proof. unfold started. destruct (usesGateway (page w)); reflexivity. Qed.

Lemma messages_answered reply w :
  messages (page (answered reply (started w)))
  = (messages (page w)
       ++ [{| role := User; content := JStr (prompt (page w)) |};
           {| role := Assistant; content := reply |}])%list.
Proof.
  unfold answered. cbn [page messages]. rewrite messages_started, <- app_assoc.
  reflexivity.
Qed.

Lemma adapterCalls_started w :
  adapterCalls (started w)
  = if usesGateway (page w)
    then (adapterCalls w ++ [(prompt (page w), selectedModel (page w))])%list
    else adapterCalls w.
Proof. unfold started. destruct (usesGateway (page w)); reflexivity. Qed.

Lemma accepted_true p :
  trim (prompt p) <> EmptyString -> isLoading p = false -> accepted p = true.
Proof.
  intros Ht Hl. unfold accepted.
  rewrite (ToBoolean_nonempty_string _ Ht), Hl. reflexivity.
Qed.

Lemma ScriptStatus_eqb_eq a b : ScriptStatus_eqb a b = true <-> a = b.
Proof. destruct a, b; simpl; split; congruence. Qed.



(** The adapter is invoked by a submission exactly when the submission
    is accepted and takes the gateway path. *)
Lemma adapterCalls_run chat w :
  adapterCalls (run (handleSubmit chat (page w)) w)
  = if accepted (page w) && usesGateway (page w)
    then (adapterCalls w ++ [(prompt (page w), selectedModel (page w))])%list
    else adapterCalls w.
Proof.
  rewrite handleSubmit_run.
  destruct (accepted (page w)); [|reflexivity].
  cbn [andb].
  destruct (replyOf chat (page w)); unfold answered; cbn [adapterCalls];
    apply adapterCalls_started.
Qed.

(** C10.  When a submission invokes the adapter, the capability handle
    and its [ai] part are both truthy, so the adapter does not take its
    not-loaded branch nor its missing-[ai] branch: what it ends with is
    decided by the [chat] check alone, the advisory for a [chat] that is
    not a function, and otherwise the awaited call followed by the
    normaliser. *)
Theorem C10_adapter_guarded chat w :
  adapterCalls (run (handleSubmit chat (page w)) w) <> adapterCalls w ->
  exists ai chatMethod,
    ToBoolean (puterRef (page w)) = true
    /\ Get (puterRef (page w)) "ai" = Normal ai
    /\ ToBoolean ai = true
    /\ Get ai "chat" = Normal chatMethod
    /\ adapterCalls (run (handleSubmit chat (page w)) w)
       = (adapterCalls w ++ [(prompt (page w), selectedModel (page w))])%list
    /\ fst (callPuterChat chat (prompt (page w)) (selectedModel (page w)) w)
       = if (typeof chatMethod =? "function")%string
         then response <~ chat (JStr (prompt (page w)))
                               (JObj [("model", JStr (selectedModel (page w)))]) ;;
              extractTextFromResponse response
         else Normal (JStr chatUnavailableAdvisory).
Proof.
  rewrite adapterCalls_run.
  destruct (accepted (page w)); [|intros H; contradiction H; reflexivity].
  destruct (usesGateway (page w)) eqn:Hg; [|intros H; contradiction H; reflexivity].
  intros _. cbn [andb].
  unfold usesGateway, aiOf in Hg. apply andb_prop in Hg as [_ Hai].
  destruct (puterRef (page w)) as [| | | | | | | |props|] eqn:Hp;
    try (simpl in Hai; discriminate).
  cbn [GetOpt] in Hai.
  destruct (Get_object_normal props "ai") as [ai Hget].
  rewrite Hget in Hai.
  destruct (Get_truthy_normal ai "chat" Hai) as [chatMethod Hchat].
  exists ai, chatMethod.
  repeat split; try assumption.
  rewrite callPuterChat_eq. cbn [fst]. rewrite Hp.
  unfold adapterOutcome. cbn [ToBoolean negb]. rewrite Hget.
  rewrite Hai. cbn [negb]. rewrite Hchat.
  destruct (typeof chatMethod =? "function")%string; reflexivity.
Qed.

(** C10 on a loaded gateway whose [chat] is a string. *)
Lemma C10_adapter_guarded_witness :
  exists ai chatMethod,
    ToBoolean (stubPuter (JStr "not a function")) = true
    /\ Get (stubPuter (JStr "not a function")) "ai" = Normal ai
    /\ ToBoolean ai = true
    /\ Get ai "chat" = Normal chatMethod
    /\ adapterCalls
         (run (handleSubmit failingChat
                 (page (typed Loaded (stubPuter (JStr "not a function")) "hi")))
              (typed Loaded (stubPuter (JStr "not a function")) "hi"))
       = [("hi", "gpt-4o")]
    /\ fst (callPuterChat failingChat "hi" "gpt-4o"
               (typed Loaded (stubPuter (JStr "not a function")) "hi"))
       = if (typeof chatMethod =? "function")%string
         then response <~ failingChat (JStr "hi") (JObj [("model", JStr "gpt-4o")]) ;;
              extractTextFromResponse response
         else Normal (JStr chatUnavailableAdvisory).
Proof.
  apply (C10_adapter_guarded failingChat
           (typed Loaded (stubPuter (JStr "not a function")) "hi")).
  discriminate.
Defined.

(* ================================================================== *)
(** * The conversation *)
(* ================================================================== *)


Lemma adapterOutcome_pending chat puter promptText model :
  adapterOutcome chat puter promptText model = Pending ->
  chat (JStr promptText) (JObj [("model", JStr model)]) = Pending.
Proof.
  unfold adapterOutcome.
  destruct (negb (ToBoolean puter)); [discriminate|].
  destruct (Get puter "ai") as [ai|]; [|discriminate].
  destruct (negb (ToBoolean ai)); [discriminate|].
  destruct (Get ai "chat") as [chatMethod|]; [|discriminate].
  destruct (negb (typeof chatMethod =? "function")%string); [discriminate|].
  destruct (chat (JStr promptText) (JObj [("model", JStr model)])) as [c|];
    [discriminate|reflexivity].
Qed.


(** A submission is left suspended only on the gateway path, by a call
    whose promise is pending. *)
Lemma replyOf_none chat p :
  replyOf chat p = None ->
  usesGateway p = true
  /\ chat (JStr (prompt p)) (JObj [("model", JStr (selectedModel p))]) = Pending.
Proof.
  unfold replyOf. destruct (usesGateway p); [|discriminate].
  destruct (adapterOutcome chat (puterRef p) (prompt p) (selectedModel p))
    as [[text|e]|] eqn:E; try discriminate.
  intros _. split; [reflexivity|exact (adapterOutcome_pending _ _ _ _ E)].
Qed.





Lemma reachable_helloTyped : reachable helloTyped.
Proof.
  unfold helloTyped.
  apply (reachable_step (fireLoad (stubPuter (JFun "chat" None)) mounted)).
  - apply (reachable_step mounted); [apply reachable_mounted|].
    apply step_load. reflexivity.
  - apply step_type. reflexivity.
Qed.

(** A page that waits for the gateway's answer to a greeting. *)
Lemma reachable_waiting : reachable (submit pendingChat helloTyped).
Proof.
  apply (reachable_step helloTyped); [exact reachable_helloTyped|apply step_submit].
Qed.




(* ================================================================== *)
(** * Gateway availability *)
(* ================================================================== *)

Lemma statusOf_fireTimeout a : statusOf (fireTimeout a) = Error.
Proof. reflexivity. Qed.

Lemma statusOf_fireLoad windowPuter a :
  statusOf (fireLoad windowPuter a) = if ToBoolean windowPuter then Loaded else Error.
Proof.
  unfold statusOf, fireLoad, run, onload, hbind, setScriptStatus, setPuterRef,
    setMessages, setErrorMessage, update. cbn [world].
  destruct (ToBoolean windowPuter); reflexivity.
Qed.

Lemma statusOf_fireError a : statusOf (fireError a) = Error.
Proof. reflexivity. Qed.

Lemma scriptStatus_started w : scriptStatus (page (started w)) = scriptStatus (page w).
Proof. unfold started. destruct (usesGateway (page w)); reflexivity. Qed.

Lemma statusOf_submit chat a : statusOf (submit chat a) = statusOf a.
Proof.
  unfold statusOf, submit. cbn [world]. rewrite handleSubmit_run.
  destruct (accepted (page (world a))); [|reflexivity].
  destruct (replyOf chat (page (world a))); unfold answered;
    cbn [page scriptStatus]; apply scriptStatus_started.
Qed.

(** The end of a suspended submission touches neither the status nor
    what is left of the loading events. *)
Lemma settle_loader response a :
  statusOf (settle response a) = statusOf a
  /\ timerPending (settle response a) = timerPending a
  /\ scriptPending (settle response a) = scriptPending a.
Proof.
  unfold settle, statusOf. destruct (awaiting a) as [currentPrompt|];
    [|repeat split].
  unfold run. cbn [world timerPending scriptPending]. rewrite resumeSubmit_eq.
  repeat split.
Qed.

Ltac loader_case :=
  split;
  [ split;
    [ let H := fresh in
      intros H; first [discriminate H | destruct (ToBoolean _); discriminate H]
    | let H := fresh in intros [H _]; discriminate H ]
  | split;
    [ reflexivity
    | let H := fresh in intros H; first [reflexivity | discriminate H] ] ].

Lemma loaderInvariant_step a a' : loaderInvariant a -> step a a' -> loaderInvariant a'.
Proof.
  intros (Hload & Hclear & Hready) Hstep.
  destruct Hstep as [a Ht|a windowPuter Hs|a Hs|a text _|a model|a|a chat|a response _];
    unfold loaderInvariant.
  - rewrite statusOf_fireTimeout. cbn [timerPending scriptPending fireTimeout].
    loader_case.
  - rewrite statusOf_fireLoad. cbn [timerPending scriptPending fireLoad].
    loader_case.
  - rewrite statusOf_fireError. cbn [timerPending scriptPending fireError].
    loader_case.
  - exact (conj Hload (conj Hclear Hready)).
  - exact (conj Hload (conj Hclear Hready)).
  - exact (conj Hload (conj Hclear Hready)).
  - rewrite statusOf_submit. exact (conj Hload (conj Hclear Hready)).
  - destruct (settle_loader response a) as (Hs & Ht & Hp). rewrite Hs, Ht, Hp.
    exact (conj Hload (conj Hclear Hready)).
Qed.

Lemma loaderInvariant_reachable a : reachable a -> loaderInvariant a.
Proof.
  induction 1 as [|a a' _ IH Hstep].
  - unfold loaderInvariant. repeat split; try reflexivity; discriminate.
  - exact (loaderInvariant_step a a' IH Hstep).
Qed.

(** The timer may fire first. *)
Lemma reachable_timedOut : reachable (fireTimeout mounted).
Proof.
  apply (reachable_step mounted); [apply reachable_mounted|].
  apply step_timeout. reflexivity.
Qed.

(** C4, as stated, fails: when the timer fires before the script has
    loaded the status becomes failed, and the load event that arrives
    later moves it from failed to ready. *)
Lemma C4_failed_then_ready :
  reachable (fireTimeout mounted)
  /\ step (fireTimeout mounted)
          (fireLoad (stubPuter (JFun "chat" None)) (fireTimeout mounted))
  /\ statusOf (fireTimeout mounted) = Error
  /\ statusOf (fireLoad (stubPuter (JFun "chat" None)) (fireTimeout mounted)) = Loaded.
Proof.
  split; [exact reachable_timedOut|]. split; [|split; reflexivity].
  apply step_load. reflexivity.
Qed.

(** C4, amended.  In every reachable state the status is pending exactly
    while neither the timer nor the script element has fired, so the
    first of the three loading events moves it to ready or to failed and
    it never returns to pending.  Ready is final.  Failed is final
    except for one case: the load event of a script that finishes after
    the timer has fired moves failed to ready.  A step that changes the
    status uses up one of the two loading events that can still happen,
    so the status changes at most twice. *)
Theorem C4_availability_transitions a a' :
  reachable a ->
  step a a' ->
  (statusOf a = Loading <-> timerPending a = true /\ scriptPending a = true)
  /\ (statusOf a' = Loading -> statusOf a = Loading)
  /\ (statusOf a = Loaded -> statusOf a' = Loaded)
  /\ (statusOf a = Error -> statusOf a' = Loaded ->
      timerPending a = false /\ scriptPending a = true
      /\ exists windowPuter, a' = fireLoad windowPuter a /\ ToBoolean windowPuter = true)
  /\ (scriptPending a = false -> statusOf a' = statusOf a)
  /\ (eventsLeft a' <= eventsLeft a <= 2)%nat
  /\ (statusOf a' <> statusOf a -> eventsLeft a' < eventsLeft a)%nat.
Proof.
  intros Hr Hstep.
  pose proof (loaderInvariant_reachable a Hr) as (Hload & Hclear & Hready).
  split; [exact Hload|].
  assert (Hbound : (eventsLeft a <= 2)%nat).
  { unfold eventsLeft. destruct (timerPending a), (scriptPending a); simpl; lia. }
  assert (Hsame : forall b : App,
             statusOf b = statusOf a -> eventsLeft b = eventsLeft a ->
             (statusOf b = Loading -> statusOf a = Loading)
             /\ (statusOf a = Loaded -> statusOf b = Loaded)
             /\ (statusOf a = Error -> statusOf b = Loaded ->
                 timerPending a = false /\ scriptPending a = true
                 /\ exists windowPuter,
                      b = fireLoad windowPuter a /\ ToBoolean windowPuter = true)
             /\ (scriptPending a = false -> statusOf b = statusOf a)
             /\ (eventsLeft b <= eventsLeft a <= 2)%nat
             /\ (statusOf b <> statusOf a -> eventsLeft b < eventsLeft a)%nat).
  { intros b Hs He. rewrite Hs, He.
    split; [tauto|]. split; [tauto|]. split; [congruence|]. split; [tauto|].
    split; [lia|]. intros H. contradiction H. reflexivity. }
  destruct Hstep as [a Ht|a windowPuter Hs|a Hs|a text _|a model|a|a chat|a response _].
  - rewrite statusOf_fireTimeout.
    assert (Hev : (eventsLeft (fireTimeout a) < eventsLeft a)%nat).
    { unfold eventsLeft. cbn [timerPending scriptPending fireTimeout]. rewrite Ht.
      destruct (scriptPending a); simpl; lia. }
    split; [discriminate|]. split; [|split; [|split; [|split]]].
    + intros H. apply Hready, Hclear in H. congruence.
    + discriminate.
    + intros H. apply Hclear in H. congruence.
    + lia.
    + intros _. exact Hev.
  - rewrite statusOf_fireLoad.
    assert (Hev : (eventsLeft (fireLoad windowPuter a) < eventsLeft a)%nat).
    { unfold eventsLeft. cbn [timerPending scriptPending fireLoad]. rewrite Hs.
      destruct (timerPending a); simpl; lia. }
    split; [destruct (ToBoolean windowPuter); discriminate|].
    split; [|split; [|split; [|split]]].
    + intros H. apply Hready in H. congruence.
    + intros Herr Hloaded. split; [|split; [exact Hs|]].
      * destruct (timerPending a) eqn:Ht; [|reflexivity].
        assert (statusOf a = Loading) by (apply Hload; auto). congruence.
      * exists windowPuter. split; [reflexivity|].
        destruct (ToBoolean windowPuter); [reflexivity|discriminate].
    + intros H. congruence.
    + lia.
    + intros _. exact Hev.
  - rewrite statusOf_fireError.
    assert (Hev : (eventsLeft (fireError a) < eventsLeft a)%nat).
    { unfold eventsLeft. cbn [timerPending scriptPending fireError]. rewrite Hs.
      destruct (timerPending a); simpl; lia. }
    split; [discriminate|]. split; [|split; [|split; [|split]]].
    + intros H. apply Hready in H. congruence.
    + discriminate.
    + intros H. congruence.
    + lia.
    + intros _. exact Hev.
  - apply Hsame; reflexivity.
  - apply Hsame; reflexivity.
  - apply Hsame; reflexivity.
  - apply Hsame; [apply statusOf_submit|reflexivity].
  - destruct (settle_loader response a) as (Hs & Ht & Hp).
    apply Hsame; [exact Hs|]. unfold eventsLeft. rewrite Ht, Hp. reflexivity.
Qed.

(** C4 on a load event without the handle straight after mounting, and
    on a load event that comes after the timeout. *)
Lemma C4_availability_transitions_witness :
  (statusOf (fireLoad JUndefined mounted) <> statusOf mounted ->
   eventsLeft (fireLoad JUndefined mounted) < eventsLeft mounted)%nat
  /\ (timerPending (fireTimeout mounted) = false
      /\ scriptPending (fireTimeout mounted) = true
      /\ exists windowPuter,
           fireLoad (stubPuter (JFun "chat" None)) (fireTimeout mounted)
           = fireLoad windowPuter (fireTimeout mounted)
           /\ ToBoolean windowPuter = true).
Proof.
  split.
  - apply (C4_availability_transitions mounted (fireLoad JUndefined mounted)).
    + apply reachable_mounted.
    + apply step_load. reflexivity.
  - apply (C4_availability_transitions (fireTimeout mounted)
             (fireLoad (stubPuter (JFun "chat" None)) (fireTimeout mounted))).
    + exact reachable_timedOut.
    + apply step_load. reflexivity.
    + reflexivity.
    + reflexivity.
Defined.

(* ================================================================== *)
(** * Further properties of the normaliser *)
(* ================================================================== *)

Lemma NumberValue_is_number neg mant exp10 : typeof (NumberValue neg mant exp10) = "number".
Proof.
  unfold NumberValue. destruct (mant =? 0); [reflexivity|].
  destruct (decimal_fraction mant exp10) as [n d].
  destruct (round_binary64 n d) as [[m q]|]; [|reflexivity].
  destruct (m =? 0); [reflexivity|].
  destruct (shortest_decimal m q); reflexivity.
Qed.

Lemma parse_number_is_number s v rest :
  parse_number s = Some (v, rest) -> typeof v = "number".
Proof.
  unfold parse_number.
  destruct (starts_with "-" s) as [tl|];
    match goal with
    | |- context [number_int ?x] => destruct (number_int x) as [[ip s2]|]
    end; try discriminate;
    (destruct (number_frac s2) as [[fp s3]|]; [|discriminate]);
    (destruct (number_exp s3) as [[e s5]|]; [|discriminate]);
    intros [= <- _]; apply NumberValue_is_number.
Qed.

Lemma number_is_scalar v :
  typeof v = "number" -> isArray v = false /\ HasProperty v "text" = false.
Proof. destruct v; try discriminate; split; reflexivity. Qed.

(** A value that does not start with a bracket or a brace is a string, a
    literal or a number. *)
Lemma parse_value_scalar fuel s v rest :
  starts_with "{" s = None -> starts_with "[" s = None ->
  parse_value fuel s = Parsed v rest ->
  isArray v = false /\ HasProperty v "text" = false.
Proof.
  intros Hb Ha. destruct fuel as [|fuel]; [discriminate|].
  cbn [parse_value]. rewrite Hb, Ha.
  destruct (starts_with "034" s) as [tl|].
  { destruct (parse_string tl) as [[str r]|]; [|discriminate].
    intros [= <- _]. split; reflexivity. }
  destruct (strip_prefix "true" s); [intros [= <- _]; split; reflexivity|].
  destruct (strip_prefix "false" s); [intros [= <- _]; split; reflexivity|].
  destruct (strip_prefix "null" s); [intros [= <- _]; split; reflexivity|].
  destruct (parse_number s) as [[v' r]|] eqn:E; [|discriminate].
  intros [= <- _]. exact (number_is_scalar _ (parse_number_is_number _ _ _ E)).
Qed.

(** X1.  A string reply whose first character after leading white space
    is neither an opening bracket nor an opening brace (plain prose,
    the empty string, a quoted JSON string, a number) is returned
    unchanged. *)
Theorem string_without_bracket_unchanged s :
  opensBracket s = false ->
  extractTextFromResponse (JStr s) = Normal (JStr s).
Proof.
  intros Hopen. apply string_passes_through. unfold passes_through, JSON_parse.
  assert (Hb : starts_with "{" (skip_ws s) = None /\ starts_with "[" (skip_ws s) = None).
  { unfold opensBracket in Hopen. destruct (skip_ws s) as [|c tl]; [split; reflexivity|].
    apply orb_false_elim in Hopen as [H1 H2]. simpl. rewrite H1, H2. split; reflexivity. }
  destruct Hb as [Hb Ha].
  destruct (parse_value (S (2 * String.length s)) (skip_ws s)) as [v rest| |] eqn:E.
  - destruct (parse_value_scalar _ _ _ _ Hb Ha E) as [H1 H2].
    destruct (skip_ws rest =? EmptyString)%string.
    + right. exists v. auto.
    + left. eexists. reflexivity.
  - left. eexists. reflexivity.
  - left. eexists. reflexivity.
Qed.

Lemma string_without_bracket_unchanged_witness :
  extractTextFromResponse (JStr "  The answer is [42].") = Normal (JStr "  The answer is [42].")
  /\ extractTextFromResponse (JStr (jsonText "'quoted \n text'"))
     = Normal (JStr (jsonText "'quoted \n text'")).
Proof.
  split; apply string_without_bracket_unchanged; reflexivity.
Defined.

(** X2.  When a string reply is the JSON text of an object with a [text]
    field, the result is the value of that field, whatever it is, the
    empty string included; the same object given directly yields that
    value only when it is truthy (and no [message.content.text] comes
    first). *)
Theorem json_object_text_returned s props v :
  JSON_parse s = Normal (JObj props) ->
  lookup "text" props = Some v ->
  extractTextFromResponse (JStr s) = Normal v
  /\ (ToBoolean v = true -> lookup "message" props = None ->
      extractTextFromResponse (JObj props) = Normal v).
Proof.
  intros Hp Hl. split.
  - unfold extractTextFromResponse. rewrite Hp.
    cbn [bind ToBoolean isArray andb typeof]. simpl HasProperty. rewrite Hl.
    simpl. rewrite Hl. reflexivity.
  - intros Hv Hm.
    rewrite (extract_object_unfold props JUndefined JUndefined JUndefined);
      try reflexivity.
    + cbn [ToBoolean]. simpl Get. rewrite Hl. cbn [bind]. rewrite Hv. reflexivity.
    + simpl. rewrite Hm. reflexivity.
Qed.

Lemma json_object_text_returned_witness :
  extractTextFromResponse (JStr (jsonText "{'type':'text','text':'x'}")) = Normal (JStr "x")
  /\ (ToBoolean (JStr "x") = true ->
      lookup "message" [("type", JStr "text"); ("text", JStr "x")] = None ->
      extractTextFromResponse (JObj [("type", JStr "text"); ("text", JStr "x")])
      = Normal (JStr "x")).
Proof.
  exact (json_object_text_returned (jsonText "{'type':'text','text':'x'}")
           [("type", JStr "text"); ("text", JStr "x")] (JStr "x") eq_refl eq_refl).
Defined.

Lemma extract_array_joined items strs :
  mapM ToString (keptTexts items) = Normal strs ->
  extractTextFromResponse (JArr items) = Normal (JStr (concat_with newline strs)).
Proof.
  intros Hs. unfold extractTextFromResponse.
  cbn [ToBoolean negb isArray elements].
  rewrite (joinTexts_spec items strs Hs). reflexivity.
Qed.

Lemma extract_array_caught items e :
  mapM ToString (keptTexts items) = Throw e ->
  extractTextFromResponse (JArr items) = Normal (JStr "Error processing response").
Proof.
  intros He. unfold extractTextFromResponse.
  cbn [ToBoolean negb isArray elements].
  rewrite (joinTexts_throw items e He). reflexivity.
Qed.

(** X3.  An array reply gives the newline-separated join of the truthy
    [text] values of its object items, in order; items that are not
    objects, or have no [text], or a falsy one, contribute nothing, so an
    array without any usable item gives the empty string.  When a kept
    value cannot be converted to a string, the result is the literal of
    the [catch]. *)
Theorem array_reply_joined items :
  (forall strs,
      mapM ToString (keptTexts items) = Normal strs ->
      extractTextFromResponse (JArr items) = Normal (JStr (concat_with newline strs)))
  /\ (keptTexts items = [] ->
      extractTextFromResponse (JArr items) = Normal (JStr EmptyString))
  /\ (forall e,
         mapM ToString (keptTexts items) = Throw e ->
         extractTextFromResponse (JArr items) = Normal (JStr "Error processing response")).
Proof.
  split; [exact (extract_array_joined items)|]. split.
  - intros Hk. apply (extract_array_joined items []). rewrite Hk. reflexivity.
  - exact (extract_array_caught items).
Qed.

Lemma array_reply_joined_witness :
  extractTextFromResponse
    (JArr [JObj [("type", JStr "text"); ("text", JStr "one")]; JStr "loose"; JNull;
           JObj [("text", JArr [JNum 1 0; JNull; JStr "x"])]])
  = Normal (JStr ("one" ++ newline ++ "1,,x"))
  /\ extractTextFromResponse (JArr [JStr "a"; JNum 1 0; JObj [("text", JNum 0 0)]])
     = Normal (JStr EmptyString)
  /\ extractTextFromResponse (JArr [JObj [("text", JObj [("toString", JNull)])]])
     = Normal (JStr "Error processing response").
Proof.
  split; [|split].
  - apply (proj1 (array_reply_joined _) ["one"; "1,,x"]). reflexivity.
  - apply (proj1 (proj2 (array_reply_joined _))). reflexivity.
  - apply (proj2 (proj2 (array_reply_joined _)) TypeError). reflexivity.
Defined.

(** X4.  A JSON text of an array and the array itself are normalised
    alike as long as the kept [text] values convert to strings; when one
    does not, the text comes back unchanged while the array gives the
    literal of the [catch]. *)
Theorem json_array_text_and_array_agree s items :
  JSON_parse s = Normal (JArr items) ->
  (forall strs,
      mapM ToString (keptTexts items) = Normal strs ->
      extractTextFromResponse (JStr s) = extractTextFromResponse (JArr items))
  /\ (forall e,
         mapM ToString (keptTexts items) = Throw e ->
         extractTextFromResponse (JStr s) = Normal (JStr s)
         /\ extractTextFromResponse (JArr items)
            = Normal (JStr "Error processing response")).
Proof.
  intros Hp. split.
  - intros strs Hs.
    rewrite (extract_array_joined items strs Hs).
    unfold extractTextFromResponse. rewrite Hp.
    cbn [bind ToBoolean isArray andb elements].
    rewrite (joinTexts_spec items strs Hs). reflexivity.
  - intros e He. split.
    + unfold extractTextFromResponse. rewrite Hp.
      cbn [bind ToBoolean isArray andb elements].
      rewrite (joinTexts_throw items e He). reflexivity.
    + exact (extract_array_caught items e He).
Qed.

Lemma json_array_text_and_array_agree_witness :
  extractTextFromResponse (JStr (jsonText "[{'text':'a'},{'text':2.50}]"))
  = extractTextFromResponse (JArr [JObj [("text", JStr "a")]; JObj [("text", JNum 25 (-1))]])
  /\ extractTextFromResponse (JStr (jsonText "[{'text':{'toString':0}}]"))
     = Normal (JStr (jsonText "[{'text':{'toString':0}}]")).
Proof.
  split.
  - apply (proj1 (json_array_text_and_array_agree
                    (jsonText "[{'text':'a'},{'text':2.50}]")
                    [JObj [("text", JStr "a")]; JObj [("text", JNum 25 (-1))]] eq_refl)
             ["a"; "2.5"]).
    reflexivity.
  - apply (proj2 (json_array_text_and_array_agree
                    (jsonText "[{'text':{'toString':0}}]")
                    [JObj [("text", JObj [("toString", JNum 0 0)])]] eq_refl) TypeError).
    reflexivity.
Defined.

(** X5.  Replies that are not strings, arrays or plain objects: a falsy
    one ([null], [undefined], [false], zero) gives the literal for a
    missing reply, [true] and a non-zero number give their text, and a
    function gives its source text.  The empty string, though falsy, is
    a string reply and comes back as the empty string. *)
Theorem primitive_replies :
  (forall v, ToBoolean v = false -> v <> JStr EmptyString ->
             extractTextFromResponse v = Normal (JStr "No response received"))
  /\ extractTextFromResponse (JStr EmptyString) = Normal (JStr EmptyString)
  /\ extractTextFromResponse (JBool true) = Normal (JStr "true")
  /\ (forall m e, m <> 0 ->
                  extractTextFromResponse (JNum m e) = Normal (JStr (NumberToString m e)))
  /\ (forall src call, src <> "[object Object]" ->
                       extractTextFromResponse (JFun src call) = Normal (JStr src)).
Proof.
  split; [|split; [reflexivity|split; [reflexivity|split]]].
  - intros v Hv Hne. destruct v as [| |b|m e|neg| |s|items|props|src call];
      try discriminate; try reflexivity.
    + simpl in Hv. subst b. reflexivity.
    + unfold extractTextFromResponse. rewrite Hv. reflexivity.
    + simpl in Hv. destruct (String.eqb_spec s EmptyString); [|discriminate].
      subst. contradiction Hne. reflexivity.
  - intros m e Hm. unfold extractTextFromResponse.
    cbn [ToBoolean]. destruct (Z.eqb_spec m 0) as [|_]; [contradiction|].
    cbn [negb isArray Get GetOpt bind ToBoolean custom_toString ToString
         primitive_to_string typeof String.eqb Ascii.eqb Bool.eqb].
    cbn [strict_neq_string].
    destruct (NumberToString m e =? "[object Object]")%string; reflexivity.
  - intros src call Hsrc. unfold extractTextFromResponse.
    cbn [ToBoolean negb isArray Get GetOpt bind custom_toString ToString
         strict_neq_string].
    destruct (String.eqb_spec src "[object Object]"); [contradiction|reflexivity].
Qed.

Lemma primitive_replies_witness :
  extractTextFromResponse JUndefined = Normal (JStr "No response received")
  /\ extractTextFromResponse (JNum 0 3) = Normal (JStr "No response received")
  /\ extractTextFromResponse (JNum (-75) (-1)) = Normal (JStr "-7.5")
  /\ extractTextFromResponse (JFun "() => 1" None) = Normal (JStr "() => 1").
Proof.
  split; [|split; [|split]].
  - apply (proj1 primitive_replies); [reflexivity|discriminate].
  - apply (proj1 primitive_replies); [reflexivity|discriminate].
  - apply (proj1 (proj2 (proj2 (proj2 primitive_replies))) (-75) (-1)). discriminate.
  - apply (proj2 (proj2 (proj2 (proj2 primitive_replies)))). discriminate.
Defined.

(* ================================================================== *)
(** * Further properties of the orchestrator *)
(* ================================================================== *)

Lemma trimStart_asciiBlank s : asciiBlank s = true -> trimStart s = EmptyString.
Proof.
  induction s as [|c tl IH]; [reflexivity|].
  simpl. intros H. apply andb_prop in H as [Hc Htl].
  rewrite Hc. exact (IH Htl).
Qed.

Lemma trim_asciiBlank s : asciiBlank s = true -> trim s = EmptyString.
Proof. intros H. unfold trim. rewrite (trimStart_asciiBlank s H). reflexivity. Qed.

(** X6.  A submission is ignored, leaving the whole state as it was and
    invoking nothing, when the prompt is empty or made of ASCII white
    space only, and when a submission is already in flight. *)
Theorem blank_or_busy_submission_ignored chat w :
  asciiBlank (prompt (page w)) = true \/ isLoading (page w) = true ->
  handleSubmit chat (page w) w = (Settled (Normal tt), w).
Proof.
  intros H. unfold handleSubmit.
  destruct H as [H|H].
  - rewrite (trim_asciiBlank _ H). reflexivity.
  - rewrite H, orb_true_r. reflexivity.
Qed.

Lemma blank_or_busy_submission_ignored_witness :
  handleSubmit failingChat
    (page (typed Loaded (stubPuter (JFun "chat" None)) (String "009" "  " ++ newline)))
    (typed Loaded (stubPuter (JFun "chat" None)) (String "009" "  " ++ newline))
  = (Settled (Normal tt),
     typed Loaded (stubPuter (JFun "chat" None)) (String "009" "  " ++ newline)).
Proof.
  apply blank_or_busy_submission_ignored. left. reflexivity.
Defined.











(** X8.  The send button is disabled exactly when [handleSubmit] would
    ignore the submission: the [disabled] attribute and the guard of the
    handler test the same thing. *)
Theorem sendDisabled_iff_ignored chat w :
  sendDisabled (page w) = true <-> run (handleSubmit chat (page w)) w = w.
Proof.
  rewrite handleSubmit_run. unfold sendDisabled, accepted.
  destruct (isLoading (page w)), (ToBoolean (JStr (trim (prompt (page w))))); simpl;
    split; intros H; try reflexivity; try discriminate.
  exfalso. apply (f_equal (fun x => length (messages (page x)))) in H.
  destruct (replyOf chat (page w)).
  - rewrite messages_answered, length_app in H. simpl in H. lia.
  - rewrite messages_started, length_app in H. simpl in H. lia.
Qed.




(** X10.  When the stored handle has no truthy [ai] part (or there is no
    handle), an accepted submission is answered by the mock responder
    and the adapter is not invoked, whether the script has loaded or
    not: the adapter's advisory about a missing AI service is not what
    the user gets. *)
Theorem handle_without_ai_uses_mock chat w :
  trim (prompt (page w)) <> EmptyString ->
  isLoading (page w) = false ->
  (forall ai, GetOpt (puterRef (page w)) "ai" = Normal ai -> ToBoolean ai = false) ->
  messages (page (run (handleSubmit chat (page w)) w))
  = (messages (page w)
       ++ [{| role := User; content := JStr (prompt (page w)) |};
           {| role := Assistant; content := JStr (getMockResponse (prompt (page w))) |}])%list
  /\ adapterCalls (run (handleSubmit chat (page w)) w) = adapterCalls w.
Proof.
  intros Ht Hl Hno.
  assert (Hg : usesGateway (page w) = false).
  { unfold usesGateway, aiOf.
    destruct (GetOpt_total (puterRef (page w)) "ai") as [ai Hai].
    rewrite Hai, (Hno ai Hai). apply andb_false_r. }
  rewrite adapterCalls_run, handleSubmit_run, (accepted_true _ Ht Hl), Hg.
  unfold replyOf. rewrite Hg. split; [apply messages_answered|reflexivity].
Qed.

Lemma handle_without_ai_uses_mock_witness :
  messages (page (run (handleSubmit completionChat
                         (page (typed Loaded (JObj [("kv", JObj [])]) "hello")))
                      (typed Loaded (JObj [("kv", JObj [])]) "hello")))
  = [welcomeMessage;
     {| role := User; content := JStr "hello" |};
     {| role := Assistant; content := JStr mockGreeting |}]
  /\ adapterCalls (run (handleSubmit completionChat
                          (page (typed Loaded (JObj [("kv", JObj [])]) "hello")))
                       (typed Loaded (JObj [("kv", JObj [])]) "hello")) = [].
Proof.
  apply (handle_without_ai_uses_mock completionChat
           (typed Loaded (JObj [("kv", JObj [])]) "hello")).
  - discriminate.
  - reflexivity.
  - intros ai [= <-]. reflexivity.
Defined.



(** A submission that a silent gateway leaves suspended is an accepted
    one on the gateway path whose adapter passes its three checks: what
    the adapter ends with is the awaited call followed by the
    normaliser, whatever the gateway does. *)
Lemma handleSubmit_suspended chat w :
  fst (handleSubmit pendingChat (page w) w) = Pending ->
  accepted (page w) = true /\ usesGateway (page w) = true
  /\ adapterOutcome chat (puterRef (page w)) (prompt (page w)) (selectedModel (page w))
     = response <~ chat (JStr (prompt (page w)))
                        (JObj [("model", JStr (selectedModel (page w)))]) ;;
       extractTextFromResponse response.
Proof.
  rewrite handleSubmit_eq.
  destruct (accepted (page w)); [|discriminate].
  unfold replyOf. destruct (usesGateway (page w)); [|discriminate].
  unfold adapterOutcome.
  destruct (negb (ToBoolean (puterRef (page w)))); [discriminate|].
  destruct (Get (puterRef (page w)) "ai") as [ai|]; [|discriminate].
  destruct (negb (ToBoolean ai)); [discriminate|].
  destruct (Get ai "chat") as [chatMethod|]; [|discriminate].
  destruct (negb (typeof chatMethod =? "function")%string); [discriminate|].
  intros _. repeat split.
Qed.

(** X18.  Suspending and resuming is the same as not suspending: if a
    submission would be left suspended by a gateway that does not
    answer, then with a gateway whose call has settled by the time it is
    awaited the handler ends exactly as the suspended handler does when
    it is resumed with that outcome; and a submission that would not be
    left suspended does not consult the gateway's call at all. *)
Theorem settled_call_is_resumed chat w :
  (fst (handleSubmit pendingChat (page w) w) = Pending ->
   forall response,
     chat (JStr (prompt (page w))) (JObj [("model", JStr (selectedModel (page w)))])
     = Settled response ->
     handleSubmit chat (page w) w
     = resumeSubmit (prompt (page w)) response
         (run (handleSubmit pendingChat (page w)) w))
  /\ (fst (handleSubmit pendingChat (page w) w) <> Pending ->
      handleSubmit chat (page w) w = handleSubmit pendingChat (page w) w).
Proof.
  split.
  - intros Hp response Hc.
    destruct (handleSubmit_suspended chat w Hp) as (Hacc & Hg & Hout).
    destruct (handleSubmit_suspended pendingChat w Hp) as (_ & _ & Hout').
    rewrite resumeSubmit_eq, handleSubmit_run, !handleSubmit_eq, Hacc.
    unfold replyOf. rewrite Hg, Hout, Hout', Hc.
    cbn [andThen pendingChat]. unfold replyTo.
    destruct (r <- response;; extractTextFromResponse r); reflexivity.
  - intros Hp. rewrite !handleSubmit_eq in *.
    destruct (accepted (page w)); [|reflexivity].
    unfold replyOf in *. destruct (usesGateway (page w)); [|reflexivity].
    unfold adapterOutcome in *.
    destruct (negb (ToBoolean (puterRef (page w)))); [reflexivity|].
    destruct (Get (puterRef (page w)) "ai") as [ai|]; [|reflexivity].
    destruct (negb (ToBoolean ai)); [reflexivity|].
    destruct (Get ai "chat") as [chatMethod|]; [|reflexivity].
    destruct (negb (typeof chatMethod =? "function")%string); [reflexivity|].
    contradiction Hp. reflexivity.
Qed.

Lemma settled_call_is_resumed_witness :
  handleSubmit completionChat (page (world helloTyped)) (world helloTyped)
  = resumeSubmit "hello"
      (Normal (JObj [("message", JObj [("content", JStr "Four.")])]))
      (world (submit pendingChat helloTyped)).
Proof.
  exact (proj1 (settled_call_is_resumed completionChat (world helloTyped)) eq_refl
           (Normal (JObj [("message", JObj [("content", JStr "Four.")])])) eq_refl).
Defined.

(* ================================================================== *)
(** * Further invariants of the running page *)
(* ================================================================== *)

Lemma exchanges_app l : forall u a,
  exchanges l -> role u = User -> role a = Assistant ->
  exchanges (l ++ [u] ++ [a])%list.
Proof.
  intros u a Hl Hu Ha. induction Hl as [|u' a' rest Hu' Ha' _ IH].
  - simpl. constructor; [exact Hu|exact Ha|constructor].
  - simpl. constructor; [exact Hu'|exact Ha'|exact IH].
Qed.

Lemma pageInvariant_mounted : pageInvariant mounted.
Proof.
  unfold pageInvariant, statusOf, messagesOf, loaderBanner. cbn.
  repeat split; try discriminate; try reflexivity; try tauto; try constructor.
Qed.

Ltac invariant_parts :=
  refine (conj _ (conj _ (conj _ (conj _ (conj _ (conj _ (conj _ (conj _ (conj _
            (conj _ _)))))))))).

Lemma In_app_left {A} (x : A) l l' : In x l -> In x (l ++ l')%list.
Proof. intros H. apply in_or_app. left. exact H. Qed.

Lemma pageInvariant_step a a' :
  loaderInvariant a -> pageInvariant a -> step a a' -> pageInvariant a'.
Proof.
  intros (Hload & Hclear & Hready)
         (Href & Hnull & Hban & HbanL & HbanP & HbanS & Hconv & Hconv' & Hcalls0
          & Hcalls & Hbusy) Hstep.
  assert (Hnot : timerPending a = true \/ scriptPending a = true -> statusOf a <> Loaded).
  { intros [H|H] Hl; apply Hready in Hl.
    - apply Hclear in Hl. congruence.
    - congruence. }
  unfold pageInvariant, loaderBanner.
  destruct Hstep as [a Ht|a windowPuter Hs|a Hs|a text _|a model|a|a chat|a response Hw].
  - (* timeout *)
    specialize (Hnot (or_introl Ht)).
    unfold statusOf, messagesOf, openTurn in *. cbn.
    invariant_parts; try discriminate; auto.
  - (* load *)
    specialize (Hnot (or_intror Hs)).
    destruct (Hconv' Hnot) as [Hex Hidle].
    unfold statusOf, messagesOf, openTurn in *.
    unfold fireLoad, run, onload, hbind, setScriptStatus, setPuterRef, setMessages,
      setErrorMessage, update. cbn [world awaiting].
    destruct (ToBoolean windowPuter) eqn:Hwp; cbn.
    + rewrite (Hcalls0 Hnot), Hidle. cbn.
      invariant_parts; try discriminate; auto; try tauto.
      * intros _. exists []. split; [reflexivity|split; [constructor|simpl; lia]].
      * rewrite Hidle in Hbusy. exact Hbusy.
    + invariant_parts; try discriminate; auto.
  - (* error *)
    specialize (Hnot (or_intror Hs)).
    unfold statusOf, messagesOf, openTurn in *. cbn.
    invariant_parts; try discriminate; auto.
  - unfold statusOf, messagesOf, openTurn in *. cbn.
    invariant_parts; auto.
  - unfold statusOf, messagesOf, openTurn in *. cbn.
    invariant_parts; auto.
  - unfold statusOf, messagesOf, openTurn in *. cbn.
    invariant_parts; auto.
  - (* submit *)
    unfold statusOf, messagesOf, openTurn in *. unfold submit.
    cbn [world scriptPending awaiting].
    rewrite handleSubmit_run, handleSubmit_eq.
    destruct (accepted (page (world a))) eqn:Hacc;
      [|cbn [fst]; invariant_parts; auto].
    assert (Hidle : awaiting a = None).
    { unfold accepted in Hacc. apply andb_prop in Hacc as [_ Hl].
      destruct (awaiting a); [|reflexivity].
      rewrite Hbusy in Hl. discriminate. }
    rewrite Hidle in *.
    assert (Hgate : usesGateway (page (world a)) = true ->
                    scriptStatus (page (world a)) = Loaded).
    { unfold usesGateway. intros H. apply andb_prop in H as [H _].
      apply ScriptStatus_eqb_eq. exact H. }
    set (user := {| role := User; content := JStr (prompt (page (world a))) |}).
    assert (Hold : forall tail,
               Forall (fun c : string * string =>
                         In {| role := User; content := JStr (fst c) |}
                            (messages (page (world a)) ++ user :: tail))
                      (adapterCalls (started (world a)))).
    { intros tail. rewrite adapterCalls_started.
      assert (H : Forall (fun c : string * string =>
                            In {| role := User; content := JStr (fst c) |}
                               (messages (page (world a)) ++ user :: tail))
                         (adapterCalls (world a))).
      { eapply Forall_impl; [|exact Hcalls]. intros c. apply In_app_left. }
      destruct (usesGateway (page (world a))); [|exact H].
      apply Forall_app. split; [exact H|].
      constructor; [|constructor].
      apply in_or_app. right. left. reflexivity. }
    assert (Hcount : forall rest : list Message,
               (2 * length (adapterCalls (world a)) <= length rest + 2 * 0)%nat ->
               (2 * length (adapterCalls (started (world a))) <= length rest + 2)%nat).
    { intros rest H. rewrite adapterCalls_started.
      destruct (usesGateway (page (world a))); [rewrite length_app; simpl|]; lia. }
    destruct (replyOf chat (page (world a))) as [reply|] eqn:Hreply; cbn [fst snd].
    + (* answered before the handler returns *)
      rewrite messages_answered. unfold answered.
      cbn [page adapterCalls messages scriptStatus errorMessage puterRef isLoading].
      rewrite scriptStatus_started.
      assert (Href' : puterRef (page (started (world a))) = puterRef (page (world a))).
      { unfold started. destruct (usesGateway (page (world a))); reflexivity. }
      assert (Hban' : errorMessage (page (started (world a))) = None).
      { unfold started. destruct (usesGateway (page (world a))); reflexivity. }
      rewrite Href', Hban'.
      invariant_parts; auto;
        try exact (Hold [{| role := Assistant; content := reply |}]).
      * intros Hl. destruct (Hconv Hl) as (rest & Hm & Hex & Hc). rewrite Hm.
        exists (rest ++ [user] ++ [{| role := Assistant; content := reply |}])%list.
        split; [|split].
        -- rewrite !app_nil_r. reflexivity.
        -- apply exchanges_app; [exact Hex|reflexivity|reflexivity].
        -- specialize (Hcount rest Hc). rewrite !length_app. simpl. simpl in Hcount.
           lia.
      * intros Hl. split; [|reflexivity].
        apply (exchanges_app _ user); [exact (proj1 (Hconv' Hl))|reflexivity|reflexivity].
      * intros Hl. rewrite adapterCalls_started.
        destruct (usesGateway (page (world a))) eqn:Hg; [|exact (Hcalls0 Hl)].
        contradiction (Hl (Hgate eq_refl)).
    + (* left suspended *)
      destruct (replyOf_none _ _ Hreply) as [Hg _].
      pose proof (Hgate Hg) as Hl.
      rewrite scriptStatus_started, messages_started.
      assert (Hstart : puterRef (page (started (world a))) = puterRef (page (world a))
                       /\ errorMessage (page (started (world a))) = None
                       /\ isLoading (page (started (world a))) = true).
      { unfold started. rewrite Hg. repeat split. }
      destruct Hstart as (Href' & Hban' & Hbusy'). rewrite Href', Hban', Hbusy'.
      invariant_parts; auto; try (intros Hn; contradiction (Hn Hl));
        try exact (Hold []).
      intros _. destruct (Hconv Hl) as (rest & Hm & Hex & Hc). rewrite Hm.
      exists rest. split; [|split].
      * rewrite app_nil_r. reflexivity.
      * exact Hex.
      * exact (Hcount rest Hc).
  - (* the awaited call settles *)
    destruct (awaiting a) as [currentPrompt|] eqn:Hwait; [|contradiction Hw; reflexivity].
    assert (Hl : statusOf a = Loaded).
    { destruct (statusOf a); [|reflexivity|];
        destruct (Hconv' ltac:(discriminate)) as [_ H]; discriminate H. }
    unfold statusOf, messagesOf, openTurn in *. unfold settle. rewrite Hwait in *.
    unfold run. cbn [world scriptPending awaiting]. rewrite resumeSubmit_eq.
    unfold answered.
    cbn [snd page adapterCalls messages scriptStatus errorMessage puterRef isLoading].
    invariant_parts; auto; try (intros Hn; contradiction (Hn Hl)).
    + intros _. destruct (Hconv Hl) as (rest & Hm & Hex & Hc). rewrite Hm.
      exists (rest ++ [{| role := User; content := JStr currentPrompt |}]
                   ++ [{| role := Assistant;
                          content := replyTo currentPrompt response |}])%list.
      split; [|split].
      * rewrite app_nil_r. simpl. rewrite <- !app_assoc. reflexivity.
      * apply exchanges_app; [exact Hex|reflexivity|reflexivity].
      * rewrite !length_app. simpl. simpl in Hc. lia.
    + eapply Forall_impl; [|exact Hcalls]. intros c. apply In_app_left.
Qed.

Lemma pageInvariant_reachable a : reachable a -> pageInvariant a.
Proof.
  induction 1 as [|a a' Hr IH Hstep].
  - exact pageInvariant_mounted.
  - exact (pageInvariant_step a a' (loaderInvariant_reachable a Hr) IH Hstep).
Qed.

(** A page whose script finished loading after the timer had fired. *)
Lemma reachable_lateLoad :
  reachable (fireLoad (stubPuter (JFun "chat" None)) (fireTimeout mounted)).
Proof.
  apply (reachable_step (fireTimeout mounted)); [exact reachable_timedOut|].
  apply step_load. reflexivity.
Qed.

(** X12.  In every reachable state the capability handle is stored
    exactly when the status is ready; otherwise [puterRef.current] is
    still [null]. *)
Theorem handle_stored_iff_ready a :
  reachable a ->
  (statusOf a = Loaded <-> ToBoolean (puterRef (page (world a))) = true)
  /\ (statusOf a <> Loaded -> puterRef (page (world a)) = JNull).
Proof.
  intros Hr. destruct (pageInvariant_reachable a Hr) as (Href & Hnull & _).
  split; [split; [exact Href|]|exact Hnull].
  intros Ht. destruct (statusOf a) eqn:E; [|reflexivity|];
    rewrite Hnull in Ht; discriminate.
Qed.

Lemma handle_stored_iff_ready_witness :
  (statusOf (fireLoad JUndefined mounted) = Loaded
   <-> ToBoolean (puterRef (page (world (fireLoad JUndefined mounted)))) = true)
  /\ (statusOf (fireLoad JUndefined mounted) <> Loaded ->
      puterRef (page (world (fireLoad JUndefined mounted))) = JNull).
Proof.
  apply (handle_stored_iff_ready (fireLoad JUndefined mounted)).
  apply (reachable_step mounted); [apply reachable_mounted|].
  apply step_load. reflexivity.
Defined.

(** X13.  In every reachable state the error banner is empty or is one
    of the three messages of the script loader (the handler's own error
    text is never shown).  While the status is pending there is no
    banner; when the status is ready the only banner there can be is the
    timeout's, left over from a timer that fired before the script
    finished loading. *)
Theorem banner_is_the_loaders a :
  reachable a ->
  loaderBanner (errorMessage (page (world a)))
  /\ (statusOf a = Loading -> errorMessage (page (world a)) = None)
  /\ (statusOf a = Loaded ->
      errorMessage (page (world a)) = None
      \/ errorMessage (page (world a)) = Some timeoutMessage).
Proof.
  intros Hr.
  destruct (pageInvariant_reachable a Hr) as (_ & _ & Hban & HbanL & HbanP & _).
  auto.
Qed.

Lemma banner_is_the_loaders_witness :
  statusOf (fireLoad (stubPuter (JFun "chat" None)) (fireTimeout mounted)) = Loaded
  /\ errorMessage (page (world (fireLoad (stubPuter (JFun "chat" None))
                                         (fireTimeout mounted))))
     = Some timeoutMessage
  /\ loaderBanner
       (errorMessage (page (world (fireLoad (stubPuter (JFun "chat" None))
                                            (fireTimeout mounted))))).
Proof.
  split; [reflexivity|]. split; [reflexivity|].
  apply (banner_is_the_loaders _ reachable_lateLoad).
Defined.

(** X14.  In every reachable state the conversation is a run of
    exchanges, each a user message followed by an assistant message; it
    is headed by the welcome message exactly when the status is ready,
    and no other system message ever appears.  (Exchanges made before
    the script loaded are dropped when the welcome message is set.)
    Exactly while the page is busy, the run is followed by the user
    message of the submission that waits for the gateway's answer; the
    page is busy only with the status ready. *)
Theorem conversation_shape a :
  reachable a ->
  (statusOf a = Loaded ->
   exists rest tail,
     messagesOf a = (welcomeMessage :: rest ++ tail)%list
     /\ exchanges rest
     /\ unanswered (page (world a)) tail)
  /\ (statusOf a <> Loaded ->
      exchanges (messagesOf a) /\ isLoading (page (world a)) = false).
Proof.
  intros Hr.
  destruct (pageInvariant_reachable a Hr)
    as (_ & _ & _ & _ & _ & _ & Hconv & Hconv' & _ & _ & Hbusy).
  split.
  - intros Hl. destruct (Hconv Hl) as (rest & Hm & Hex & _).
    exists rest, (openTurn a). split; [exact Hm|]. split; [exact Hex|].
    unfold unanswered, openTurn. rewrite Hbusy.
    destruct (awaiting a) as [currentPrompt|]; [|reflexivity].
    exists currentPrompt. reflexivity.
  - intros Hn. destruct (Hconv' Hn) as [Hex Hidle].
    split; [exact Hex|]. rewrite Hbusy, Hidle. reflexivity.
Qed.

Lemma conversation_shape_witness :
  exists rest tail,
    messagesOf (submit pendingChat (settle (Normal (JStr "Hi!")) (submit pendingChat helloTyped)))
    = (welcomeMessage :: rest ++ tail)%list
    /\ exchanges rest
    /\ unanswered
         (page (world (submit pendingChat
                         (settle (Normal (JStr "Hi!")) (submit pendingChat helloTyped)))))
         tail.
Proof.
  apply (conversation_shape
           (submit pendingChat (settle (Normal (JStr "Hi!")) (submit pendingChat helloTyped)))).
  - apply (reachable_step (settle (Normal (JStr "Hi!")) (submit pendingChat helloTyped)));
      [|apply step_submit].
    apply (reachable_step (submit pendingChat helloTyped));
      [exact reachable_waiting|].
    apply step_settle. discriminate.
  - reflexivity.
Defined.

(** X15.  In every reachable state the adapter has not been invoked
    unless the status is ready; it has been invoked at most once per
    exchange of the conversation; and every invocation was made with the
    text of a user message that is in the conversation. *)
Theorem adapter_calls_follow_conversation a :
  reachable a ->
  (statusOf a <> Loaded -> adapterCalls (world a) = [])
  /\ (2 * length (adapterCalls (world a)) <= length (messagesOf a))%nat
  /\ Forall (fun c => In {| role := User; content := JStr (fst c) |} (messagesOf a))
            (adapterCalls (world a)).
Proof.
  intros Hr.
  destruct (pageInvariant_reachable a Hr)
    as (_ & _ & _ & _ & _ & _ & Hconv & _ & Hcalls0 & Hcalls & _).
  split; [exact Hcalls0|]. split; [|exact Hcalls].
  destruct (statusOf a) eqn:E;
    try (rewrite Hcalls0 by discriminate; simpl; lia).
  destruct (Hconv eq_refl) as (rest & Hm & _ & Hc). rewrite Hm.
  simpl. rewrite length_app.
  unfold openTurn in *. destruct (awaiting a); simpl in *; lia.
Qed.

Lemma adapter_calls_follow_conversation_witness :
  adapterCalls (world (submit completionChat helloTyped)) = [("hello", "gpt-4o")]
  /\ Forall (fun c => In {| role := User; content := JStr (fst c) |}
                         (messagesOf (submit completionChat helloTyped)))
            (adapterCalls (world (submit completionChat helloTyped))).
Proof.
  split; [reflexivity|].
  apply (adapter_calls_follow_conversation (submit completionChat helloTyped)).
  apply (reachable_step helloTyped); [exact reachable_helloTyped|apply step_submit].
Defined.


(** X19.  At most one submission is in flight.  While the page is busy,
    the only event that changes the conversation or ends the busy state
    is the settling of the awaited call, which appends the assistant
    message; every other event that can happen (a further submission, a
    change of model, the debug switch) leaves the conversation, the
    prompt box and the record of adapter invocations as they are: no
    second call is issued before the first has settled. *)
Theorem one_submission_in_flight a a' :
  reachable a ->
  step a a' ->
  isLoading (page (world a)) = true ->
  (exists response reply,
      a' = settle response a
      /\ isLoading (page (world a')) = false
      /\ messagesOf a' = (messagesOf a ++ [{| role := Assistant; content := reply |}])%list
      /\ adapterCalls (world a') = adapterCalls (world a))
  \/ (isLoading (page (world a')) = true
      /\ messagesOf a' = messagesOf a
      /\ prompt (page (world a')) = prompt (page (world a))
      /\ adapterCalls (world a') = adapterCalls (world a)).
Proof.
  intros Hr Hstep Hb.
  pose proof (loaderInvariant_reachable a Hr) as (Hload & Hclear & Hready).
  destruct (pageInvariant_reachable a Hr)
    as (_ & _ & _ & _ & _ & _ & _ & Hconv' & _ & _ & Hbusy).
  assert (Hl : statusOf a = Loaded).
  { destruct (statusOf a); [|reflexivity|];
      destruct (Hconv' ltac:(discriminate)) as [_ H]; rewrite Hbusy, H in Hb;
      discriminate Hb. }
  assert (Hs : scriptPending a = false) by (apply Hready, Hl).
  assert (Ht : timerPending a = false) by (apply Hclear, Hs).
  destruct Hstep as [a Ht'|a windowPuter Hs'|a Hs'|a text Hidle|a model|a|a chat|a response Hw];
    try congruence.
  - right. repeat split. exact Hb.
  - right. repeat split. exact Hb.
  - right. unfold submit, messagesOf. cbn [world].
    rewrite handleSubmit_run. unfold accepted. rewrite Hb, andb_false_r.
    repeat split. exact Hb.
  - left. destruct (awaiting a) as [currentPrompt|] eqn:Hwait;
      [|contradiction Hw; reflexivity].
    exists response, (replyTo currentPrompt response).
    split; [reflexivity|].
    unfold settle, messagesOf, run. rewrite Hwait. cbn [world].
    rewrite resumeSubmit_eq. repeat split.
Qed.

Lemma one_submission_in_flight_witness :
  isLoading (page (world (submit completionChat (submit pendingChat helloTyped)))) = true
  /\ messagesOf (submit completionChat (submit pendingChat helloTyped))
     = [welcomeMessage; {| role := User; content := JStr "hello" |}]
  /\ adapterCalls (world (submit completionChat (submit pendingChat helloTyped)))
     = [("hello", "gpt-4o")].
Proof.
  destruct (one_submission_in_flight (submit pendingChat helloTyped)
              (submit completionChat (submit pendingChat helloTyped))
              reachable_waiting (step_submit _ _) eq_refl)
    as [(response & reply & _ & H & _)|(H1 & H2 & _ & H3)]; [discriminate H|].
  split; [exact H1|]. split; [exact H2|exact H3].
Defined.

(* ================================================================== *)
(** * The mock responder *)
(* ================================================================== *)

(** Case analysis on the bits of a character, lowest first, stopping as
    soon as [tac] closes the goal. *)
Ltac by_bits c tac :=
  let b0 := fresh "b" in let b1 := fresh "b" in let b2 := fresh "b" in
  let b3 := fresh "b" in let b4 := fresh "b" in let b5 := fresh "b" in
  let b6 := fresh "b" in let b7 := fresh "b" in
  destruct c as [b0 b1 b2 b3 b4 b5 b6 b7];
  destruct b0; try solve [tac];
  destruct b1; try solve [tac];
  destruct b2; try solve [tac];
  destruct b3; try solve [tac];
  destruct b4; try solve [tac];
  destruct b5; try solve [tac];
  destruct b6; try solve [tac];
  destruct b7; solve [tac].

Lemma toLowerCase_plain c tl :
  (c =? "196")%char = false -> (c =? "226")%char = false ->
  toLowerCase (String c tl) = String (lowerChar c) (toLowerCase tl).
Proof.
  intros H1 H2. revert H1 H2.
  by_bits c ltac:(intros; first [reflexivity | discriminate]).
Qed.

Lemma toLowerCase_196 c2 tl2 :
  (c2 =? "176")%char = false ->
  toLowerCase (String "196" (String c2 tl2)) = String "196" (toLowerCase (String c2 tl2)).
Proof.
  intros H. revert H.
  by_bits c2 ltac:(intros; first [reflexivity | discriminate]).
Qed.

Lemma toLowerCase_226_short c2 :
  toLowerCase (String "226" (String c2 EmptyString))
  = String "226" (toLowerCase (String c2 EmptyString)).
Proof.
  by_bits c2 ltac:(reflexivity).
Qed.

Lemma toLowerCase_226 c2 c3 tl3 :
  ((c2 =? "132") && (c3 =? "170"))%char = false ->
  toLowerCase (String "226" (String c2 (String c3 tl3)))
  = String "226" (toLowerCase (String c2 (String c3 tl3))).
Proof.
  intros H. revert H.
  by_bits c2 ltac:(intros; first [reflexivity | discriminate
                                 | by_bits c3 ltac:(intros; first [reflexivity | discriminate])]).
Qed.

Lemma ascii_neq_high r (c : ascii) :
  (N_of_ascii r <? 128)%N = true -> (128 <=? N_of_ascii c)%N = true ->
  (r =? c)%char = false.
Proof.
  intros Hr Hc. destruct (Ascii.eqb_spec r c) as [->|]; [|reflexivity].
  apply N.ltb_lt in Hr. apply N.leb_le in Hc. lia.
Qed.

Lemma append_empty s : s ++ EmptyString = s.
Proof. induction s as [|c tl IH]; simpl; [reflexivity|rewrite IH; reflexivity]. Qed.

(** Lower-casing distributes over a split in front of an ASCII
    character. *)
Lemma toLowerCase_app n : forall a rest,
  (String.length a <= n)%nat -> headAscii rest = true ->
  toLowerCase (a ++ rest) = toLowerCase a ++ toLowerCase rest.
Proof.
  induction n as [|n IH]; intros a rest Hn Hrest.
  { destruct a; [reflexivity|simpl in Hn; lia]. }
  destruct a as [|c a1]; [reflexivity|].
  simpl in Hn. cbn [append].
  destruct (c =? "196")%char eqn:E196.
  { apply Ascii.eqb_eq in E196. subst c.
    destruct a1 as [|c2 a2].
    - cbn [append]. destruct rest as [|r rest']; [reflexivity|].
      rewrite toLowerCase_196 by (apply (ascii_neq_high r "176" Hrest); reflexivity).
      reflexivity.
    - simpl in Hn. cbn [append].
      destruct (c2 =? "176")%char eqn:E176.
      + apply Ascii.eqb_eq in E176. subst c2.
        change (toLowerCase (String "196" (String "176" (a2 ++ rest))))
          with (String "i" (String "204" (String "135" (toLowerCase (a2 ++ rest))))).
        change (toLowerCase (String "196" (String "176" a2)))
          with (String "i" (String "204" (String "135" (toLowerCase a2)))).
        rewrite (IH a2 rest) by (assumption || lia). reflexivity.
      + rewrite !toLowerCase_196 by exact E176.
        change (String c2 (a2 ++ rest)) with (String c2 a2 ++ rest).
        rewrite (IH (String c2 a2) rest) by (assumption || (simpl; lia)).
        reflexivity. }
  destruct (c =? "226")%char eqn:E226.
  { apply Ascii.eqb_eq in E226. subst c.
    destruct a1 as [|c2 [|c3 a3]]; simpl in Hn.
    - cbn [append]. destruct rest as [|r [|r2 rest'']]; [reflexivity| |].
      + rewrite toLowerCase_226_short. reflexivity.
      + rewrite toLowerCase_226; [reflexivity|].
        rewrite (ascii_neq_high r "132" Hrest) by reflexivity. reflexivity.
    - cbn [append]. destruct rest as [|r rest'].
      + rewrite append_empty. reflexivity.
      + rewrite toLowerCase_226, toLowerCase_226_short.
        * change (String c2 (String r rest')) with (String c2 EmptyString ++ String r rest').
          rewrite (IH (String c2 EmptyString) (String r rest'))
            by (assumption || (simpl; lia)).
          reflexivity.
        * rewrite (ascii_neq_high r "170" Hrest) by reflexivity. apply andb_false_r.
    - cbn [append].
      destruct ((c2 =? "132") && (c3 =? "170"))%char eqn:Ek.
      + apply andb_prop in Ek as [E1 E2].
        apply Ascii.eqb_eq in E1, E2. subst c2 c3.
        change (toLowerCase (String "226" (String "132" (String "170" (a3 ++ rest)))))
          with (String "k" (toLowerCase (a3 ++ rest))).
        change (toLowerCase (String "226" (String "132" (String "170" a3))))
          with (String "k" (toLowerCase a3)).
        rewrite (IH a3 rest) by (assumption || lia). reflexivity.
      + rewrite !toLowerCase_226 by exact Ek.
        change (String c2 (String c3 (a3 ++ rest)))
          with (String c2 (String c3 a3) ++ rest).
        rewrite (IH (String c2 (String c3 a3)) rest) by (assumption || (simpl; lia)).
        reflexivity. }
  rewrite !toLowerCase_plain by assumption.
  rewrite (IH a1 rest) by (assumption || lia). reflexivity.
Qed.

Lemma toLowerCase_ascii x : forall b,
  isAscii x = true -> toLowerCase (x ++ b) = toLowerCase x ++ toLowerCase b.
Proof.
  induction x as [|c tl IH]; intros b Hx; [reflexivity|].
  simpl in Hx. apply andb_prop in Hx as [Hc Htl].
  cbn [append].
  rewrite !toLowerCase_plain
    by (apply (ascii_neq_high c _ Hc); reflexivity).
  rewrite (IH b Htl). reflexivity.
Qed.

Lemma prefix_app k : forall q, prefix k (k ++ q) = true.
Proof.
  induction k as [|c tl IH]; intros q; [destruct q; reflexivity|].
  simpl. destruct (ascii_dec c c) as [_|Hne]; [apply IH|contradiction Hne; reflexivity].
Qed.

Lemma includes_app p : forall k q, includes (p ++ k ++ q) k = true.
Proof.
  induction p as [|c tl IH]; intros k q.
  - cbn [append]. destruct (k ++ q) eqn:E; cbn [includes];
      rewrite <- E, prefix_app; reflexivity.
  - cbn [append includes]. rewrite IH.
    destruct (prefix k (String c (tl ++ k ++ q))); reflexivity.
Qed.

(** Where a keyword stands in a prompt, it stands in its lower-case
    form. *)
Lemma keyword_found a x b k :
  isAscii x = true -> toLowerCase x = k -> k <> EmptyString ->
  includes (toLowerCase (a ++ x ++ b)) k = true.
Proof.
  intros Hx Hk Hne.
  assert (Hhead : headAscii (x ++ b) = true).
  { destruct x as [|c tl]; [contradiction Hne; subst; reflexivity|].
    simpl in Hx. apply andb_prop in Hx as [Hc _]. exact Hc. }
  rewrite (toLowerCase_app _ a (x ++ b) (Nat.le_refl _) Hhead).
  rewrite (toLowerCase_ascii x b Hx), Hk.
  apply includes_app.
Qed.

(** X16.  The mock responder looks for its keywords anywhere in the
    prompt and in any letter case.  A prompt that contains [hello] or
    [hi] gets the greeting, also inside another word and also when it
    asks for help; a prompt that contains [help] never gets the generic
    text. *)
Theorem mock_keywords a x b :
  isAscii x = true ->
  (toLowerCase x = "hello" \/ toLowerCase x = "hi" ->
   getMockResponse (a ++ x ++ b) = mockGreeting)
  /\ (toLowerCase x = "help" ->
      getMockResponse (a ++ x ++ b) = mockGreeting
      \/ getMockResponse (a ++ x ++ b) = mockHelp).
Proof.
  intros Hx. unfold getMockResponse. split.
  - intros [Hk|Hk];
      rewrite (keyword_found a x b _ Hx Hk) by discriminate;
      rewrite ?orb_true_r; reflexivity.
  - intros Hk. rewrite (keyword_found a x b _ Hx Hk) by discriminate.
    destruct (includes (toLowerCase (a ++ x ++ b)) "hello"
              || includes (toLowerCase (a ++ x ++ b)) "hi"); auto.
Qed.

Lemma mock_keywords_witness :
  getMockResponse "I need help with THIS file" = mockGreeting
  /\ (getMockResponse "HELP!" = mockGreeting \/ getMockResponse "HELP!" = mockHelp).
Proof.
  split.
  - apply (proj1 (mock_keywords "I need help with T" "HI" "S file" eq_refl)).
    right. reflexivity.
  - apply (proj2 (mock_keywords EmptyString "HELP" "!" eq_refl)). reflexivity.
Defined.

Lemma prefix_head c k s : prefix (String c k) s = true -> occurs c s = true.
Proof.
  destruct s as [|c' tl]; simpl; [discriminate|].
  destruct (ascii_dec c c') as [->|]; [|discriminate].
  intros _. rewrite Ascii.eqb_refl. reflexivity.
Qed.

Lemma includes_head c k s : includes s (String c k) = true -> occurs c s = true.
Proof.
  induction s as [|c' tl IH].
  - cbn [includes]. destruct (prefix (String c k) EmptyString) eqn:E; [|discriminate].
    intros _. exact (prefix_head c k _ E).
  - cbn [includes]. destruct (prefix (String c k) (String c' tl)) eqn:E.
    + intros _. exact (prefix_head c k _ E).
    + intros H. simpl. rewrite (IH H). apply orb_true_r.
Qed.

Lemma lowerChar_h c : (lowerChar c =? "h")%char = ((c =? "h") || (c =? "H"))%char.
Proof. by_bits c ltac:(reflexivity). Qed.

(** Lower-casing brings in no letter h that was not there in either
    case. *)
Lemma toLowerCase_occurs_h n : forall s,
  (String.length s <= n)%nat ->
  occurs "h" (toLowerCase s) = true ->
  occurs "h" s || occurs "H" s = true.
Proof.
  induction n as [|n IH]; intros s Hn Hocc.
  { destruct s; [discriminate|simpl in Hn; lia]. }
  destruct s as [|c tl]; [discriminate|].
  simpl in Hn.
  assert (Hplain : occurs "h" (String (lowerChar c) (toLowerCase tl)) = true ->
                   occurs "h" (String c tl) || occurs "H" (String c tl) = true).
  { cbn [occurs]. rewrite lowerChar_h. intros H.
    apply orb_prop in H as [H|H].
    - apply orb_prop in H as [H|H]; rewrite H; rewrite ?orb_true_r; reflexivity.
    - apply IH in H; [|lia]. apply orb_prop in H as [H|H]; rewrite H;
        rewrite ?orb_true_r; reflexivity. }
  assert (Hskip : forall rest : string,
             (String.length rest <= n)%nat ->
             occurs "h" (toLowerCase rest) = true ->
             (exists front, String c tl = front ++ rest) ->
             occurs "h" (String c tl) || occurs "H" (String c tl) = true).
  { intros rest Hlen H [front Hfront]. apply IH in H; [|exact Hlen].
    rewrite Hfront.
    assert (Happ : forall x p, occurs x rest = true -> occurs x (p ++ rest) = true).
    { intros x p Hx. induction p as [|y p IHp]; [exact Hx|].
      simpl. rewrite IHp. apply orb_true_r. }
    apply orb_prop in H as [H|H]; rewrite (Happ _ front H); rewrite ?orb_true_r;
      reflexivity. }
  destruct (c =? "196")%char eqn:E196.
  { apply Ascii.eqb_eq in E196. subst c.
    destruct tl as [|c2 tl2]; [discriminate|]. simpl in Hn.
    destruct (c2 =? "176")%char eqn:E176.
    - apply Ascii.eqb_eq in E176. subst c2.
      change (toLowerCase (String "196" (String "176" tl2)))
        with (String "i" (String "204" (String "135" (toLowerCase tl2)))) in Hocc.
      apply (Hskip tl2); [lia|exact Hocc|].
      exists (String "196" (String "176" EmptyString)). reflexivity.
    - rewrite toLowerCase_196 in Hocc by exact E176. exact (Hplain Hocc). }
  destruct (c =? "226")%char eqn:E226.
  { apply Ascii.eqb_eq in E226. subst c.
    destruct tl as [|c2 [|c3 tl3]]; simpl in Hn.
    - discriminate.
    - rewrite toLowerCase_226_short in Hocc. exact (Hplain Hocc).
    - destruct ((c2 =? "132") && (c3 =? "170"))%char eqn:Ek.
      + apply andb_prop in Ek as [E1 E2].
        apply Ascii.eqb_eq in E1, E2. subst c2 c3.
        change (toLowerCase (String "226" (String "132" (String "170" tl3))))
          with (String "k" (toLowerCase tl3)) in Hocc.
        apply (Hskip tl3); [lia|exact Hocc|].
        exists (String "226" (String "132" (String "170" EmptyString))). reflexivity.
      + rewrite toLowerCase_226 in Hocc by exact Ek. exact (Hplain Hocc). }
  rewrite toLowerCase_plain in Hocc by assumption. exact (Hplain Hocc).
Qed.

(** X17.  A prompt without the letter h, in either case, gets the
    generic text: all three keywords start with it. *)
Theorem mock_generic_without_h p :
  occurs "h" p = false -> occurs "H" p = false ->
  getMockResponse p = mockGeneric.
Proof.
  intros Hh HH.
  assert (Hno : forall k, includes (toLowerCase p) (String "h" k) = false).
  { intros k. destruct (includes (toLowerCase p) (String "h" k)) eqn:E; [|reflexivity].
    apply includes_head in E.
    apply (toLowerCase_occurs_h _ p (Nat.le_refl _)) in E.
    rewrite Hh, HH in E. discriminate. }
  unfold getMockResponse. rewrite !Hno. reflexivity.
Qed.

Lemma mock_generic_without_h_witness :
  getMockResponse "Summarize today's news, PLEASE" = mockGeneric.
Proof.
  apply mock_generic_without_h; reflexivity.
Defined.
